(** * dkmes: the multi-agent orchestrator dashboard

    A shallow embedding of the fleet-status aggregation implemented by
    [frontend/src/components/Orchestrator.tsx] and of the mesh topology
    built by the [AgentNetworkGraph] component, followed by the properties
    the specification states about them.

    Conventions of the embedding.
    - An [async] function is modelled by the value its promise settles to:
      a [completion], either [Normal v] (fulfilled) or [Throw e] (rejected).
      [try { .. } catch (e) { .. }] is [try_catch].  Every [fetch] is assumed
      to settle; how long it takes is outside the model.
    - The network is an oracle [Net]: what [fetch] settles to for each URL the
      round requests.  A parsed JSON body is read at the type the TypeScript
      interfaces declare; a property that is missing is [None]; a body that
      is JSON [null] is [PNull] (reading a property of it raises).
    - React state is an explicit record [OrchestratorState]; a function that
      calls the [set...] hooks is an [action] over it.
    - Port numbers are integers ([Z]); other JavaScript numbers are read as
      the rational they denote ([Q]); no arithmetic is done on them here. *)

From Stdlib Require Import ZArith QArith String Ascii List Bool Lia DecimalString.
From stdpp Require Import gmap strings list fin_maps.
Import ListNotations.

(** ** JavaScript fragments used by the components *)

Module Js.

Inductive JsError : Type :=
| NetworkError   (* fetch rejected: connection refused, aborted, ... *)
| SyntaxError    (* response.json() rejected: the body is not JSON *)
| TypeError.     (* property read on null *)

Inductive completion (A : Type) : Type :=
| Normal (a : A)
| Throw (e : JsError).
Arguments Normal {A} a.
Arguments Throw {A} e.

(** Sequencing of awaited steps, with stdpp's [x ← c; k] notation. *)
#[export] Instance completion_bind : MBind completion :=
  fun A B (k : A -> completion B) (c : completion A) =>
    match c with
    | Normal a => k a
    | Throw e => Throw e
    end.

Definition try_catch {A} (body : completion A) (handler : JsError -> completion A)
  : completion A :=
  match body with
  | Normal a => Normal a
  | Throw e => handler e
  end.

(** [Promise.all] over promises that were already created: fulfilled with
    all the values, rejected as soon as one of them is. *)
Fixpoint Promise_all {A} (ps : list (completion A)) : completion (list A) :=
  match ps with
  | [] => Normal []
  | p :: rest =>
      a ← p; l ← Promise_all rest; Normal (a :: l)
  end.

(** The result of [response.json()]: JSON [null], or a value whose
    properties are read at a type [A]. *)
Inductive Parsed (A : Type) : Type :=
| PNull
| PData (a : A).
Arguments PNull {A}.
Arguments PData {A} a.

(** [data.f]: raises a TypeError when [data] is null. *)
Definition prop {A B} (data : Parsed A) (f : A -> B) : completion B :=
  match data with
  | PNull => Throw TypeError
  | PData a => Normal (f a)
  end.

(** [x || d] for an optional string [x]: undefined and the empty string
    are falsy. *)
Definition or_string (x : option string) (d : string) : string :=
  match x with
  | Some s => if String.eqb s "" then d else s
  | None => d
  end.

(** [x || []] for an optional array: every array is truthy. *)
Definition or_empty {A} (x : option (list A)) : list A :=
  match x with
  | Some l => l
  | None => []
  end.

(** *** parseInt(string), radix omitted; [None] is NaN

    Leading white space is skipped (the ASCII white space characters; a
    [string] here is a sequence of bytes), then an optional sign, then an
    optional [0x] prefix that selects radix 16, then the longest run of
    digits of the radix.  The result is the exact integer the digits
    denote.  JavaScript returns the double nearest to that integer: the two
    are the same number exactly when the integer is a safe integer
    ([isSafeInteger] below), and every property that speaks of the value of
    a parsed port assumes that it is one.  Minus zero is zero. *)

Definition isWhiteSpace (c : ascii) : bool :=
  let n := nat_of_ascii c in
  Nat.eqb n 32 || (Nat.leb 9 n && Nat.leb n 13).

Fixpoint trimStart (s : string) : string :=
  match s with
  | String c rest => if isWhiteSpace c then trimStart rest else s
  | EmptyString => EmptyString
  end.

Definition digitValue (c : ascii) : option Z :=
  let n := nat_of_ascii c in
  if Nat.leb 48 n && Nat.leb n 57 then Some (Z.of_nat (n - 48))
  else if Nat.leb 97 n && Nat.leb n 122 then Some (Z.of_nat (n - 87))
  else if Nat.leb 65 n && Nat.leb n 90 then Some (Z.of_nat (n - 55))
  else None.

(** The longest prefix of digits of the radix; [acc] is [None] until a
    digit was read. *)
Fixpoint parseDigits (radix : Z) (s : string) (acc : option Z) : option Z :=
  match s with
  | String c rest =>
      match digitValue c with
      | Some d =>
          if (d <? radix)%Z
          then parseDigits radix rest
                 (Some (radix * match acc with Some a => a | None => 0 end + d)%Z)
          else acc
      | None => acc
      end
  | EmptyString => acc
  end.

Definition parseInt (s : string) : option Z :=
  let s1 := trimStart s in
  let '(sign, s2) :=
    match s1 with
    | String "-"%char rest => ((-1)%Z, rest)
    | String "+"%char rest => (1%Z, rest)
    | _ => (1%Z, s1)
    end in
  let '(radix, s3) :=
    match s2 with
    | String "0"%char (String "x"%char rest) => (16%Z, rest)
    | String "0"%char (String "X"%char rest) => (16%Z, rest)
    | _ => (10%Z, s2)
    end in
  match parseDigits radix s3 None with
  | Some n => Some (sign * n)%Z
  | None => None
  end.

(** A number is truthy unless it is NaN or zero. *)
Definition truthy_number (n : option Z) : bool :=
  match n with
  | Some z => negb (z =? 0)%Z
  | None => false
  end.

(** [`${n}`] for an integer: its decimal digits, with a minus sign when
    negative.  This is what JavaScript prints for every safe integer (it
    switches to exponent notation from 1e21 on, far above them). *)
Definition string_of_number (n : Z) : string :=
  NilZero.string_of_int (Z.to_int n).

(** [Number.isSafeInteger(n)]: at most 2^53 - 1 in absolute value.  On these
    integers [parseInt] and [string_of_number] are the JavaScript functions. *)
Definition isSafeInteger (n : Z) : bool :=
  (Z.abs n <=? 9007199254740991)%Z.

End Js.

Import Js.

(** ** The data model: the interfaces of Orchestrator.tsx *)

Inductive Status : Type := online | offline.

Definition is_online (s : Status) : bool :=
  match s with online => true | offline => false end.

Module AgentConfig.
Record t : Type := mk {
  port : Z;
  fallbackId : string;
  fallbackName : string;
  fallbackDomain : string }.
End AgentConfig.

Module AgentStatus.
(** [timestamp] is [data.timestamp] of the health response, which may be
    missing ([None]); an offline status carries the empty string. *)
Record t : Type := mk {
  agent_id : string;
  name : string;
  domain : string;
  status : Status;
  port : Z;
  timestamp : option string }.
End AgentStatus.

Module ExchangeLog.
Record t : Type := mk {
  request_id : string;
  sender_agent_id : string;
  receiver_agent_id : option string;
  domain : string;
  query : string;
  confidence : Q;
  timestamp : string }.
End ExchangeLog.

Module A2ATask.
Record Part : Type := mkPart { text : string }.
Record Message : Type := mkMessage { parts : option (list Part) }.
Record TaskStatus : Type := mkStatus { state : string; timestamp : Q }.
Record t : Type := mk {
  id : string;
  status : TaskStatus;
  history : list Message }.
End A2ATask.

(** ** The network, as the round sees it *)

Module Wire.

(** GET /health: [{agent_id, agent_name, domain, timestamp}], each of which
    may be missing. *)
Record HealthBody : Type := mkHealth {
  agent_id : option string;
  agent_name : option string;
  domain : option string;
  timestamp : option string }.

(** GET /api/v1/kep/history?limit=10: [{exchanges}]. *)
Record HistoryBody : Type := mkHistory {
  exchanges : option (list ExchangeLog.t) }.

(** POST /a2a, method tasks/list: [{result: {tasks}}]; [result] is [None]
    when it is missing or null. *)
Record TasksResult : Type := mkResult {
  tasks : option (list A2ATask.t) }.
Record TasksBody : Type := mkTasks {
  result : option TasksResult }.

(** A [Response]: its [ok] flag and what [response.json()] settles to. *)
Record Response (A : Type) : Type := mkResponse {
  ok : bool;
  json : completion (Parsed A) }.
Arguments mkResponse {A} ok json.
Arguments ok {A} r.
Arguments json {A} r.

(** What [fetch] settles to, for the three kinds of request of a round.
    The health and history URLs are determined by the port; the task
    registry is always [http://localhost:8000/a2a]. *)
Record Net : Type := mkNet {
  health : Z -> completion (Response HealthBody);
  history : Z -> completion (Response HistoryBody);
  a2a : completion (Response TasksBody) }.

End Wire.

(** ** Orchestrator.tsx *)

Module Orchestrator.

Definition DEFAULT_AGENT_CONFIGS : list AgentConfig.t :=
  [ AgentConfig.mk 8000 "dkmes-alpha" "DKMES Alpha" "knowledge-management";
    AgentConfig.mk 8001 "agent-beta-aiml" "AI/ML Research Agent" "artificial-intelligence";
    AgentConfig.mk 8002 "agent-gamma-analytics" "CVDT Chatbot Agent" "data-analytics" ].

(** The state hooks of the component. *)
Record OrchestratorState : Type := mkState {
  agentConfigs : list AgentConfig.t;
  agents : list AgentStatus.t;
  exchangesByPort : gmap Z (list ExchangeLog.t);
  activeTasks : list A2ATask.t;
  selectedAgent : option AgentStatus.t;
  loading : bool;
  autoRefresh : bool;
  showAddAgent : bool;
  newAgentPort : string }.

Definition initialState : OrchestratorState :=
  mkState DEFAULT_AGENT_CONFIGS [] ∅ [] None false true false "".

(** A function of the component that calls state setters: the state after
    it, and how the call completed. *)
Definition action (A : Type) : Type :=
  OrchestratorState -> OrchestratorState * completion A.

Definition setAgentConfigs (v : list AgentConfig.t) : action unit := fun st =>
  (mkState v (agents st) (exchangesByPort st) (activeTasks st) (selectedAgent st)
     (loading st) (autoRefresh st) (showAddAgent st) (newAgentPort st), Normal tt).

Definition setAgents (v : list AgentStatus.t) : action unit := fun st =>
  (mkState (agentConfigs st) v (exchangesByPort st) (activeTasks st) (selectedAgent st)
     (loading st) (autoRefresh st) (showAddAgent st) (newAgentPort st), Normal tt).

Definition setExchangesByPort (v : gmap Z (list ExchangeLog.t)) : action unit := fun st =>
  (mkState (agentConfigs st) (agents st) v (activeTasks st) (selectedAgent st)
     (loading st) (autoRefresh st) (showAddAgent st) (newAgentPort st), Normal tt).

Definition setActiveTasks (v : list A2ATask.t) : action unit := fun st =>
  (mkState (agentConfigs st) (agents st) (exchangesByPort st) v (selectedAgent st)
     (loading st) (autoRefresh st) (showAddAgent st) (newAgentPort st), Normal tt).

Definition setLoading (v : bool) : action unit := fun st =>
  (mkState (agentConfigs st) (agents st) (exchangesByPort st) (activeTasks st)
     (selectedAgent st) v (autoRefresh st) (showAddAgent st) (newAgentPort st), Normal tt).

Definition setAutoRefresh (v : bool) : action unit := fun st =>
  (mkState (agentConfigs st) (agents st) (exchangesByPort st) (activeTasks st)
     (selectedAgent st) (loading st) v (showAddAgent st) (newAgentPort st), Normal tt).

Definition setShowAddAgent (v : bool) : action unit := fun st =>
  (mkState (agentConfigs st) (agents st) (exchangesByPort st) (activeTasks st)
     (selectedAgent st) (loading st) (autoRefresh st) v (newAgentPort st), Normal tt).

Definition setNewAgentPort (v : string) : action unit := fun st =>
  (mkState (agentConfigs st) (agents st) (exchangesByPort st) (activeTasks st)
     (selectedAgent st) (loading st) (autoRefresh st) (showAddAgent st) v, Normal tt).

(** Statements in sequence inside an action: a raised error ends the
    action and keeps the state reached so far. *)
#[export] Instance action_bind : MBind action :=
  fun A B (k : A -> action B) (a : action A) => fun st =>
    match a st with
    | (st1, Normal x) => k x st1
    | (st1, Throw e) => (st1, Throw e)
    end.

Definition await {A} (c : completion A) : action A := fun st => (st, c).

Definition skip : action unit := fun st => (st, Normal tt).

(** *** fetchAgentStatus (lines 59-84)

    The [try] block either returns a status ([Some]), or is left without a
    [return] ([None]), or raises; the [catch] block is empty, so after it the
    function goes on to the final [return]. *)
Definition fetchAgentStatus (net : Wire.Net) (config : AgentConfig.t)
  : completion AgentStatus.t :=
  returned ← try_catch
    (response ← Wire.health net (AgentConfig.port config);
     if Wire.ok response then
       data ← Wire.json response;
       data_agent_id ← prop data Wire.agent_id;
       data_agent_name ← prop data Wire.agent_name;
       data_domain ← prop data Wire.domain;
       data_timestamp ← prop data Wire.timestamp;
       Normal (Some {|
         AgentStatus.agent_id := or_string data_agent_id (AgentConfig.fallbackId config);
         AgentStatus.name := or_string data_agent_name (AgentConfig.fallbackName config);
         AgentStatus.domain := or_string data_domain (AgentConfig.fallbackDomain config);
         AgentStatus.port := AgentConfig.port config;
         AgentStatus.status := online;
         AgentStatus.timestamp := data_timestamp |})
     else Normal None)
    (fun e => Normal None);
  match returned with
  | Some st => Normal st
  | None =>
      Normal {|
        AgentStatus.agent_id := AgentConfig.fallbackId config;
        AgentStatus.name := AgentConfig.fallbackName config;
        AgentStatus.domain := AgentConfig.fallbackDomain config;
        AgentStatus.port := AgentConfig.port config;
        AgentStatus.status := offline;
        AgentStatus.timestamp := Some "" |}
  end.

(** *** fetchExchanges (lines 86-97) *)
Record ExchangeResult : Type := mkExchangeResult {
  port : Z;
  exchanges : list ExchangeLog.t }.

Definition fetchExchanges (net : Wire.Net) (port : Z) : completion ExchangeResult :=
  returned ← try_catch
    (response ← Wire.history net port;
     if Wire.ok response then
       data ← Wire.json response;
       data_exchanges ← prop data Wire.exchanges;
       Normal (Some (mkExchangeResult port (or_empty data_exchanges)))
     else Normal None)
    (fun e => Normal None);
  match returned with
  | Some r => Normal r
  | None => Normal (mkExchangeResult port [])
  end.

(** *** fetchTasks (lines 99-120)

    [data.result?.tasks || []].  The [catch] block only writes to the
    console. *)
Definition fetchTasks (net : Wire.Net) : completion (list A2ATask.t) :=
  returned ← try_catch
    (response ← Wire.a2a net;
     if Wire.ok response then
       data ← Wire.json response;
       data_result ← prop data Wire.result;
       Normal (Some (or_empty (match data_result with
                               | Some r => Wire.tasks r
                               | None => None
                               end)))
     else Normal None)
    (fun e => Normal None);
  match returned with
  | Some l => Normal l
  | None => Normal []
  end.

(** *** refreshAll (lines 122-149)

    [agentConfigs] is the list the closure captured.  The function runs up to
    its [await] when it is called ([refreshAll_start]: the loading flag is
    set and the requests are issued) and resumes when every request has
    settled ([refreshAll_settle]). *)
Definition refreshAll_start : action unit := setLoading true.

Definition fan_out (net : Wire.Net) (agentConfigs : list AgentConfig.t)
  : completion (list AgentStatus.t * list ExchangeResult * list A2ATask.t) :=
  let agentPromises := map (fun config => fetchAgentStatus net config) agentConfigs in
  let exchangePromises :=
    map (fun config => fetchExchanges net (AgentConfig.port config)) agentConfigs in
  agentResults ← Promise_all agentPromises;
  exchangeResults ← Promise_all exchangePromises;
  tasks ← fetchTasks net;
  Normal (agentResults, exchangeResults, tasks).

(** [exchangeResults.forEach(res => newExchangesByPort[res.port] = res.exchanges)] *)
Definition storeByPort (exchangeResults : list ExchangeResult)
  : gmap Z (list ExchangeLog.t) :=
  fold_left (fun (m : gmap Z (list ExchangeLog.t)) res => <[port res := exchanges res]> m)
            exchangeResults ∅.

Definition refreshAll_settle (net : Wire.Net) (agentConfigs : list AgentConfig.t)
  : action unit :=
  results ← await (fan_out net agentConfigs);
  let '(agentResults, exchangeResults, tasks) := results in
  _ ← setAgents agentResults;
  _ ← setAgents agentResults;
  let newExchangesByPort := storeByPort exchangeResults in
  _ ← setExchangesByPort newExchangesByPort;
  _ ← setActiveTasks tasks;
  setLoading false.

Definition refreshAll (net : Wire.Net) (agentConfigs : list AgentConfig.t)
  : action unit :=
  _ ← refreshAll_start;
  refreshAll_settle net agentConfigs.

(** *** addAgent, removeAgent (lines 151-167) *)
Definition addAgent : action unit := fun st =>
  let port := parseInt (newAgentPort st) in
  match port with
  | Some p =>
      if truthy_number port
         && negb (existsb (fun c => (AgentConfig.port c =? p)%Z) (agentConfigs st))
      then
        (_ ← setAgentConfigs
               (agentConfigs st ++
                [ {| AgentConfig.port := p;
                     AgentConfig.fallbackId := "agent-" +:+ string_of_number p;
                     AgentConfig.fallbackName := "Agent :" +:+ string_of_number p;
                     AgentConfig.fallbackDomain := "unknown" |} ]);
         _ ← setNewAgentPort "";
         setShowAddAgent false) st
      else skip st
  | None => skip st
  end.

Definition removeAgent (port : Z) : action unit := fun st =>
  setAgentConfigs
    (List.filter (fun c => negb (AgentConfig.port c =? port)%Z) (agentConfigs st)) st.

(** *** getTaskStateColor, getTaskStateIcon (lines 180-197) *)
Definition getTaskStateColor (state : string) : string :=
  if String.eqb state "TASK_STATE_COMPLETED" then "#10b981"
  else if String.eqb state "TASK_STATE_FAILED" then "#ef4444"
  else if String.eqb state "TASK_STATE_WORKING" then "#3b82f6"
  else if String.eqb state "TASK_STATE_SUBMITTED" then "#f59e0b"
  else "#6b7280".

Inductive Icon : Type := CheckCircle | AlertCircle | RefreshCw_spin | Clock.

Definition getTaskStateIcon (state : string) : Icon :=
  if String.eqb state "TASK_STATE_COMPLETED" then CheckCircle
  else if String.eqb state "TASK_STATE_FAILED" then AlertCircle
  else if String.eqb state "TASK_STATE_WORKING" then RefreshCw_spin
  else Clock.

(** [getAgentExchanges] (lines 200-204): [exchangesByPort[agent.port] || []]. *)
Definition getAgentExchanges (st : OrchestratorState) (agent : AgentStatus.t)
  : list ExchangeLog.t :=
  or_empty (exchangesByPort st !! AgentStatus.port agent).

(** The [exchanges] prop handed to the graph (line 420):
    [Object.values(exchangesByPort).flat()], in the enumeration order of the
    map; the graph only tests membership in it. *)
Definition graphExchanges (st : OrchestratorState) : list ExchangeLog.t :=
  concat (map snd (map_to_list (exchangesByPort st))).

(** *** The effect (lines 169-176), the Refresh button (lines 340-358) and
    the rounds in flight

    A mounted component: its hooks, the rounds that were started and have
    not settled yet (each with the [agentConfigs] its closure captured, the
    oldest first), and the interval installed by the effect (with the
    [agentConfigs] the [refreshAll] it was given captured). *)
Record Component : Type := mkComponent {
  hooks : OrchestratorState;
  inflight : list (list AgentConfig.t);
  interval : option (list AgentConfig.t) }.

Definition unmounted : Component := mkComponent initialState [] None.

(** A call [refreshAll()] of a closure over [cfg]: it runs up to the
    [await], and the round is in flight from then on. *)
Definition callRefreshAll (cfg : list AgentConfig.t) (c : Component) : Component :=
  mkComponent (fst (refreshAll_start (hooks c))) (inflight c ++ [cfg]) (interval c).

(** The effect body, after the cleanup of its previous run
    ([clearInterval]): [refreshAll(); if (autoRefresh) setInterval(refreshAll, 3000)]. *)
Definition runEffect (c : Component) : Component :=
  let cfg := agentConfigs (hooks c) in
  let c1 := callRefreshAll cfg (mkComponent (hooks c) (inflight c) None) in
  if autoRefresh (hooks c)
  then mkComponent (hooks c1) (inflight c1) (Some cfg)
  else c1.

Inductive Event : Type :=
| Mount                                (* the first run of the effect *)
| IntervalFires                        (* the timer calls refreshAll *)
| ClickRefresh                         (* the Refresh button *)
| Settle (k : nat) (net : Wire.Net)    (* the requests of round k have settled *)
| ToggleAutoRefresh (checked : bool)   (* the Auto-refresh checkbox *)
| ToggleAddForm                        (* the Add Agent button *)
| TypePort (value : string)            (* the port input of the form *)
| ClickAdd                             (* the Add button of the form *)
| ClickRemove (port : Z).              (* the Remove button of a card *)

(** A card has a Remove button when its port is not one of the defaults
    (line 281); cards are rendered from [agents]. *)
Definition removable (st : OrchestratorState) (port : Z) : bool :=
  existsb (fun a => (AgentStatus.port a =? port)%Z) (agents st)
  && negb (existsb (fun c => (AgentConfig.port c =? port)%Z) DEFAULT_AGENT_CONFIGS).

(** One event.  The Refresh button is [disabled={loading}]: a click while
    the flag is set calls nothing.  The effect runs again when [autoRefresh]
    or [agentConfigs] changed ([removeAgent] always sets a new array). *)
Definition step (c : Component) (ev : Event) : Component :=
  match ev with
  | Mount => runEffect c
  | IntervalFires =>
      match interval c with
      | Some cfg => callRefreshAll cfg c
      | None => c
      end
  | ClickRefresh =>
      if loading (hooks c) then c
      else callRefreshAll (agentConfigs (hooks c)) c
  | Settle k net =>
      match inflight c !! k with
      | Some cfg =>
          mkComponent (fst (refreshAll_settle net cfg (hooks c)))
                      (delete k (inflight c)) (interval c)
      | None => c
      end
  | ToggleAutoRefresh checked =>
      let c1 := mkComponent (fst (setAutoRefresh checked (hooks c)))
                            (inflight c) (interval c) in
      if Bool.eqb checked (autoRefresh (hooks c)) then c1 else runEffect c1
  | ToggleAddForm =>
      mkComponent (fst (setShowAddAgent (negb (showAddAgent (hooks c))) (hooks c)))
                  (inflight c) (interval c)
  | TypePort value =>
      if showAddAgent (hooks c)
      then mkComponent (fst (setNewAgentPort value (hooks c))) (inflight c) (interval c)
      else c
  | ClickAdd =>
      if showAddAgent (hooks c) then
        let c1 := mkComponent (fst (addAgent (hooks c))) (inflight c) (interval c) in
        if Nat.eqb (length (agentConfigs (hooks c1))) (length (agentConfigs (hooks c)))
        then c1 else runEffect c1
      else c
  | ClickRemove port =>
      if removable (hooks c) port
      then runEffect (mkComponent (fst (removeAgent port (hooks c)))
                                  (inflight c) (interval c))
      else c
  end.

Definition run (c : Component) (evs : list Event) : Component :=
  fold_left step evs c.

End Orchestrator.

(** ** AgentNetworkGraph: the mesh of online agents *)

Module AgentNetworkGraph.

Inductive MarkerType : Type := ArrowClosed.

Record EdgeStyle : Type := mkStyle { stroke : string; strokeWidth : Z }.
Record EdgeMarker : Type := mkMarker { type : MarkerType; color : string }.

Record Edge : Type := mkEdge {
  id : string;
  source : string;
  target : string;
  type_ : string;
  animated : bool;
  style : EdgeStyle;
  markerEnd : EdgeMarker }.

(** [ex.receiver_agent_id === id]: false when the receiver is missing. *)
Definition receiver_is (ex : ExchangeLog.t) (id : string) : bool :=
  match ExchangeLog.receiver_agent_id ex with
  | Some r => String.eqb r id
  | None => false
  end.

(** [hasExchange] (lines 184-188 and 238-242). *)
Definition hasExchange (exchanges : list ExchangeLog.t) (sourceId targetId : string)
  : bool :=
  existsb (fun ex =>
             (String.eqb (ExchangeLog.sender_agent_id ex) sourceId && receiver_is ex targetId)
             || (String.eqb (ExchangeLog.sender_agent_id ex) targetId && receiver_is ex sourceId))
          exchanges.

(** The body of the inner loop: the edge pushed for [onlineAgents[i]] and
    [onlineAgents[j]]. *)
Definition pushEdge (exchanges : list ExchangeLog.t) (a b : AgentStatus.t) : Edge :=
  let sourceId := AgentStatus.agent_id a in
  let targetId := AgentStatus.agent_id b in
  let hasExchange := hasExchange exchanges sourceId targetId in
  {| id := sourceId +:+ "-" +:+ targetId;
     source := sourceId;
     target := targetId;
     type_ := "smoothstep";
     animated := hasExchange;
     style := {| stroke := if hasExchange then "#10b981" else "var(--border-color, #333)";
                 strokeWidth := if hasExchange then 2 else 1 |};
     markerEnd := {| type := ArrowClosed;
                     color := if hasExchange then "#10b981"
                              else "var(--border-color, #333)" |} |}.

(** [for (i = 0; i < n; i++) for (j = i + 1; j < n; j++) edges.push(..)] *)
Definition meshLoops (exchanges : list ExchangeLog.t) (onlineAgents : list AgentStatus.t)
  : list Edge :=
  flat_map (fun i =>
    flat_map (fun j =>
      match onlineAgents !! i, onlineAgents !! j with
      | Some a, Some b => [pushEdge exchanges a b]
      | _, _ => []
      end)
      (seq (S i) (length onlineAgents - S i)))
    (seq 0 (length onlineAgents)).

(** [initialEdges] (lines 173-208). *)
Definition initialEdges (agents : list AgentStatus.t) (exchanges : list ExchangeLog.t)
  : list Edge :=
  let onlineAgents := List.filter (fun a => is_online (AgentStatus.status a)) agents in
  meshLoops exchanges onlineAgents.

(** The effect that rebuilds the edges when agents or exchanges change
    (lines 229-262): the same loops, handed to [setEdges]. *)
Definition newEdges (agents : list AgentStatus.t) (exchanges : list ExchangeLog.t)
  : list Edge :=
  let onlineAgents := List.filter (fun a => is_online (AgentStatus.status a)) agents in
  meshLoops exchanges onlineAgents.

(** The same edges by recursion on the list of online agents: the first
    agent is linked to every later one, then the rest is meshed. *)
Fixpoint mesh (exchanges : list ExchangeLog.t) (onlineAgents : list AgentStatus.t)
  : list Edge :=
  match onlineAgents with
  | [] => []
  | a :: rest => map (pushEdge exchanges a) rest ++ mesh exchanges rest
  end.

(** The graph as the Orchestrator renders it (lines 418-422). *)
Definition topology (st : Orchestrator.OrchestratorState) : list Edge :=
  initialEdges (Orchestrator.agents st) (Orchestrator.graphExchanges st).

End AgentNetworkGraph.

(** ** Vocabulary of the properties *)

Module Props.
Import Orchestrator AgentNetworkGraph.

(** The ways a request fails: [fetch] rejects (connection refused, timeout
    of the transport), the response is not [ok], or its body cannot be read
    as a JSON value with properties (not JSON at all, or [null]). *)
Definition fetchFailed {A} (r : completion (Wire.Response A)) : bool :=
  match r with
  | Throw _ => true
  | Normal response =>
      negb (Wire.ok response)
      || match Wire.json response with
         | Throw _ => true
         | Normal PNull => true
         | Normal (PData _) => false
         end
  end.

(** A property of a response that is missing or the empty string. *)
Definition absent_or_empty (x : option string) : Prop :=
  x = None \/ x = Some EmptyString.

(** The record names [a] as sender and [b] as receiver, or the converse. *)
Definition links (ex : ExchangeLog.t) (a b : string) : Prop :=
  (ExchangeLog.sender_agent_id ex = a /\ ExchangeLog.receiver_agent_id ex = Some b)
  \/ (ExchangeLog.sender_agent_id ex = b /\ ExchangeLog.receiver_agent_id ex = Some a).

(** The edge joins the ids [a] and [b], in either direction. *)
Definition joins (e : Edge) (a b : string) : bool :=
  (String.eqb (source e) a && String.eqb (target e) b)
  || (String.eqb (source e) b && String.eqb (target e) a).

(** The confidence of a record lies in [0,1]. *)
Definition confidence_in_range (ex : ExchangeLog.t) : Prop :=
  (0 <= ExchangeLog.confidence ex)%Q /\ (ExchangeLog.confidence ex <= 1)%Q.

(** The task states of the specification, and the colour the dashboard
    shows each of them in. *)
Inductive TaskState : Type := Submitted | Working | Completed | Failed | Unknown.

Definition stateColor (s : TaskState) : string :=
  match s with
  | Completed => "#10b981"
  | Failed => "#ef4444"
  | Working => "#3b82f6"
  | Submitted => "#f59e0b"
  | Unknown => "#6b7280"
  end.

(** The external labels the table of [getTaskStateColor] recognises. *)
Definition labelOf (s : TaskState) : option string :=
  match s with
  | Completed => Some "TASK_STATE_COMPLETED"
  | Failed => Some "TASK_STATE_FAILED"
  | Working => Some "TASK_STATE_WORKING"
  | Submitted => Some "TASK_STATE_SUBMITTED"
  | Unknown => None
  end.

(** The loading flag is only set while some round is in flight. *)
Definition loadingMeansInFlight (c : Component) : Prop :=
  loading (hooks c) = true -> inflight c <> [].

(** The ids of a list of agents, in their order. *)
Definition ids (l : list AgentStatus.t) : list string :=
  map AgentStatus.agent_id l.

(** The status [fetchAgentStatus] falls back to. *)
Definition fallbackStatus (config : AgentConfig.t) : AgentStatus.t :=
  {| AgentStatus.agent_id := AgentConfig.fallbackId config;
     AgentStatus.name := AgentConfig.fallbackName config;
     AgentStatus.domain := AgentConfig.fallbackDomain config;
     AgentStatus.port := AgentConfig.port config;
     AgentStatus.status := offline;
     AgentStatus.timestamp := Some EmptyString |}.

End Props.

(** ** Concrete networks and states, used to run the model *)

Module Cases.
Import Orchestrator.

Definition okResponse {A} (body : A) : completion (Wire.Response A) :=
  Normal (Wire.mkResponse true (Normal (PData body))).

Definition status500 {A} : completion (Wire.Response A) :=
  Normal (Wire.mkResponse false (Throw SyntaxError)).

Definition notJson {A} : completion (Wire.Response A) :=
  Normal (Wire.mkResponse true (Throw SyntaxError)).

Definition nullBody {A} : completion (Wire.Response A) :=
  Normal (Wire.mkResponse true (Normal PNull)).

(** Nothing answers. *)
Definition net_down : Wire.Net :=
  Wire.mkNet (fun _ => Throw NetworkError) (fun _ => Throw NetworkError)
             (Throw NetworkError).

(** Alpha answers its health probe with its id, an empty name and no
    domain, and reports one exchange with beta whose confidence is 1.5;
    beta answers 500 to everything; gamma's bodies are not JSON; the task
    registry answers [null]. *)
Definition exchange_alpha_beta : ExchangeLog.t :=
  ExchangeLog.mk "req-1" "alpha-live" (Some "agent-beta-aiml") "aiml"
                 "what is a transformer" (3 # 2) "2024-01-01T00:00:00".

Definition net_partial : Wire.Net :=
  Wire.mkNet
    (fun port =>
       if (port =? 8000)%Z
       then okResponse (Wire.mkHealth (Some "alpha-live") (Some "") None
                                      (Some "2024-01-01T00:00:00"))
       else if (port =? 8001)%Z then status500
       else if (port =? 8002)%Z then notJson
       else Throw NetworkError)
    (fun port =>
       if (port =? 8000)%Z
       then okResponse (Wire.mkHistory (Some [exchange_alpha_beta]))
       else if (port =? 8001)%Z then status500
       else if (port =? 8002)%Z then notJson
       else Throw NetworkError)
    nullBody.

(** Every agent answers; the agents on ports 8000 and 8002 are two
    instances that report the same id. *)
Definition net_twins : Wire.Net :=
  Wire.mkNet
    (fun port =>
       if (port =? 8001)%Z
       then okResponse (Wire.mkHealth (Some "agent-beta-aiml") (Some "Beta")
                                      (Some "aiml") (Some "t"))
       else okResponse (Wire.mkHealth (Some "dkmes-alpha") (Some "Alpha")
                                      (Some "km") (Some "t")))
    (fun _ => okResponse (Wire.mkHistory (Some [])))
    (okResponse (Wire.mkTasks (Some (Wire.mkResult (Some []))))).

(** Every agent answers under its configured id; alpha's window holds one
    request it received from beta. *)
Definition exchange_beta_alpha : ExchangeLog.t :=
  ExchangeLog.mk "req-7" "agent-beta-aiml" (Some "dkmes-alpha") "km"
                 "summarise the corpus" (41 # 50) "2024-01-01T00:00:07".

Definition net_linked : Wire.Net :=
  Wire.mkNet
    (fun port => okResponse (Wire.mkHealth None None None (Some "t")))
    (fun port =>
       if (port =? 8000)%Z
       then okResponse (Wire.mkHistory (Some [exchange_beta_alpha]))
       else okResponse (Wire.mkHistory None))
    (okResponse (Wire.mkTasks None)).

(** Every agent answers under its configured id and no exchange was
    recorded yet. *)
Definition net_quiet : Wire.Net :=
  Wire.mkNet
    (fun port => okResponse (Wire.mkHealth None None None (Some "t")))
    (fun port => okResponse (Wire.mkHistory (Some [])))
    (okResponse (Wire.mkTasks (Some (Wire.mkResult (Some []))))).

(** As [net_linked], but gamma does not answer any more. *)
Definition net_gamma_down : Wire.Net :=
  Wire.mkNet
    (fun port =>
       if (port =? 8002)%Z then Throw NetworkError
       else okResponse (Wire.mkHealth None None None (Some "t")))
    (fun port =>
       if (port =? 8000)%Z
       then okResponse (Wire.mkHistory (Some [exchange_beta_alpha]))
       else if (port =? 8002)%Z then Throw NetworkError
       else okResponse (Wire.mkHistory None))
    (okResponse (Wire.mkTasks None)).

(** The topology after one round on the default registry: the two ends of
    each edge and whether it is active. *)
Definition topologyAfter (net : Wire.Net) : list (string * string * bool) :=
  let st' := fst (refreshAll net DEFAULT_AGENT_CONFIGS initialState) in
  map (fun e => (AgentNetworkGraph.source e, AgentNetworkGraph.target e,
                 AgentNetworkGraph.animated e))
      (AgentNetworkGraph.topology st').

(** The add form, open, with a port typed into it. *)
Definition form_with (value : string) : OrchestratorState :=
  mkState DEFAULT_AGENT_CONFIGS [] ∅ [] None false true true value.

End Cases.

(** ** Orchestrator.tsx: what the component shows and selects *)

Module OrchestratorView.
Import Orchestrator.

Definition setSelectedAgent (v : option AgentStatus.t) : action unit := fun st =>
  (mkState (agentConfigs st) (agents st) (exchangesByPort st) (activeTasks st) v
     (loading st) (autoRefresh st) (showAddAgent st) (newAgentPort st), Normal tt).

(** [getStatusColor] (line 178). *)
Definition getStatusColor (status : Status) : string :=
  match status with
  | online => "#10b981"
  | offline => "#ef4444"
  end.

(** The header (line 311): [agents.length] and
    [agents.filter(a => a.status === 'online').length]. *)
Definition agentCount (st : OrchestratorState) : nat := length (agents st).

Definition onlineCount (st : OrchestratorState) : nat :=
  length (List.filter (fun a => is_online (AgentStatus.status a)) (agents st)).




End OrchestratorView.

(** ** AgentNetworkGraph: nodes, counts, selection *)

Module GraphNodes.
Import AgentNetworkGraph.

(** A position of a node.  [calculateNodePositions] computes
    [x = 300 + radius * cos(angle)], [y = 200 + radius * sin(angle)] with
    [angle = 2 * PI * i / agentCount - PI / 2]; the point is kept as the
    radius and the pair [(i, agentCount)] that fix it, without evaluating
    the trigonometric functions.  [At] is a literal point (the default
    [{x: 100, y: 100}], or where the user dragged a node to). *)
Inductive Position : Type :=
| OnCircle (radius : Z) (i agentCount : nat)
| At (x y : Q).

(** [calculateNodePositions] (lines 130-144). *)
Definition calculateNodePositions (agentCount : nat) : list Position :=
  let radius := Z.max 150 (Z.of_nat agentCount * 40) in
  map (fun i => OnCircle radius i agentCount) (seq 0 agentCount).

(** The members every object literal inherits from [Object.prototype]:
    reading [counts[k]] for such a [k] gives the inherited member, not
    [undefined]. *)
Definition objectPrototypeNames : list string :=
  [ "constructor"; "__defineGetter__"; "__defineSetter__"; "hasOwnProperty";
    "__lookupGetter__"; "__lookupSetter__"; "isPrototypeOf";
    "propertyIsEnumerable"; "toString"; "valueOf"; "__proto__";
    "toLocaleString" ]%string.

Definition inherited (k : string) : bool :=
  existsb (String.eqb k) objectPrototypeNames.

(** [counts[k] = (counts[k] || 0) + 1].  For an inherited name the value
    read is an object or a function, the sum is a string, and the entry
    never holds a number; the numeric entries are not affected by it. *)
Definition bump (k : string) (counts : gmap string nat) : gmap string nat :=
  if inherited k then counts
  else <[k := S (default 0%nat (counts !! k))]> counts.

(** [exchangeCounts] (lines 147-156): the numeric entries of [counts]. *)
Definition exchangeCounts (exchanges : list ExchangeLog.t) : gmap string nat :=
  fold_left
    (fun counts ex =>
       let counts1 := bump (ExchangeLog.sender_agent_id ex) counts in
       match ExchangeLog.receiver_agent_id ex with
       | Some r => if String.eqb r "" then counts1 else bump r counts1
       | None => counts1
       end)
    exchanges ∅.

(** [exchangeCounts[id] || 0]: [None] when the value is not a number (the
    id is an inherited name). *)
Definition exchangeCountOf (counts : gmap string nat) (id : string) : option nat :=
  if inherited id then None else Some (default 0%nat (counts !! id)).

Record NodeData : Type := mkNodeData {
  agent : AgentStatus.t;
  exchangeCount : option nat }.

Record Node : Type := mkNode {
  id : string;
  type_ : string;
  position : Position;
  data : NodeData }.

Definition defaultPosition : Position := At 100 100.

(** [initialNodes] (lines 159-170). *)
Definition initialNodes (agents : list AgentStatus.t) (exchanges : list ExchangeLog.t)
  : list Node :=
  let positions := calculateNodePositions (length agents) in
  let exchangeCounts := exchangeCounts exchanges in
  imap (fun index agent =>
          {| id := AgentStatus.agent_id agent;
             type_ := "agentNode";
             position := default defaultPosition (positions !! index);
             data := {| agent := agent;
                        exchangeCount :=
                          exchangeCountOf exchangeCounts (AgentStatus.agent_id agent) |} |})
       agents.

(** The effect that updates the nodes when the agents change (lines
    214-226); [nodes] is the state it reads:
    [nodes.find(n => n.id === agent.agent_id)?.position || positions[index] || {x: 100, y: 100}]. *)
Definition newNodes (agents : list AgentStatus.t) (exchanges : list ExchangeLog.t)
           (nodes : list Node) : list Node :=
  let positions := calculateNodePositions (length agents) in
  let exchangeCounts := exchangeCounts exchanges in
  imap (fun index agent =>
          {| id := AgentStatus.agent_id agent;
             type_ := "agentNode";
             position :=
               match List.find (fun n => String.eqb (id n) (AgentStatus.agent_id agent))
                               nodes with
               | Some n => position n
               | None => default defaultPosition (positions !! index)
               end;
             data := {| agent := agent;
                        exchangeCount :=
                          exchangeCountOf exchangeCounts (AgentStatus.agent_id agent) |} |})
       agents.

(** [handleNodeClick] (lines 264-272), with [onAgentSelect] the
    [setSelectedAgent] the Orchestrator passes (line 421). *)
Definition handleNodeClick (agents : list AgentStatus.t) (node : Node)
  : Orchestrator.action unit :=
  match List.find (fun a => String.eqb (AgentStatus.agent_id a) (id node)) agents with
  | Some agent => OrchestratorView.setSelectedAgent (Some agent)
  | None => Orchestrator.skip
  end.

(** The [nodeColor] of the MiniMap (lines 300-303). *)
Definition nodeColor (agents : list AgentStatus.t) (node : Node) : string :=
  match List.find (fun a => String.eqb (AgentStatus.agent_id a) (id node)) agents with
  | Some agent => if is_online (AgentStatus.status agent) then "#10b981" else "#ef4444"
  | None => "#ef4444"
  end.

End GraphNodes.

(** ** The two-agent Orchestrator (the second component of Orchestrator.tsx,
    lines 526-885) *)

Module Legacy.

(** Its [AgentStatus] has no port, and [fetchAgentStatus] copies
    [data.agent_id], [data.domain] and [data.timestamp] as they are, missing
    or not. *)
Record AgentStatus : Type := mkStatus {
  agent_id : option string;
  name : string;
  domain : option string;
  status : Status;
  timestamp : option string }.

Record State : Type := mkState {
  alphaStatus : option AgentStatus;
  betaStatus : option AgentStatus;
  alphaExchanges : list ExchangeLog.t;
  betaExchanges : list ExchangeLog.t;
  activeTasks : list A2ATask.t;
  loading : bool;
  autoRefresh : bool }.

Definition initialState : State := mkState None None [] [] [] false true.

(** [fetchAgentStatus] (lines 565-582): [null] is [None]. *)
Definition fetchAgentStatus (net : Wire.Net) (port : Z)
  : completion (option AgentStatus) :=
  returned ← try_catch
    (response ← Wire.health net port;
     if Wire.ok response then
       data ← Wire.json response;
       data_agent_id ← prop data Wire.agent_id;
       data_agent_name ← prop data Wire.agent_name;
       data_domain ← prop data Wire.domain;
       data_timestamp ← prop data Wire.timestamp;
       Normal (Some {|
         agent_id := data_agent_id;
         name := or_string data_agent_name
                   (if (port =? 8000)%Z then "DKMES Alpha" else "Agent Beta");
         domain := data_domain;
         status := online;
         timestamp := data_timestamp |})
     else Normal None)
    (fun e => Normal None);
  match returned with
  | Some st => Normal (Some st)
  | None => Normal None
  end.

(** [fetchExchanges] (lines 584-595). *)
Definition fetchExchanges (net : Wire.Net) (port : Z)
  : completion (list ExchangeLog.t) :=
  returned ← try_catch
    (response ← Wire.history net port;
     if Wire.ok response then
       data ← Wire.json response;
       data_exchanges ← prop data Wire.exchanges;
       Normal (Some (or_empty data_exchanges))
     else Normal None)
    (fun e => Normal None);
  match returned with
  | Some l => Normal l
  | None => Normal []
  end.

(** [fetchTasks] (lines 597-618). *)
Definition fetchTasks (net : Wire.Net) : completion (list A2ATask.t) :=
  returned ← try_catch
    (response ← Wire.a2a net;
     if Wire.ok response then
       data ← Wire.json response;
       data_result ← prop data Wire.result;
       Normal (Some (or_empty (match data_result with
                               | Some r => Wire.tasks r
                               | None => None
                               end)))
     else Normal None)
    (fun e => Normal None);
  match returned with
  | Some l => Normal l
  | None => Normal []
  end.

Definition alphaOffline : AgentStatus :=
  mkStatus (Some "dkmes-alpha") "DKMES Alpha" (Some "knowledge-management")
           offline (Some "").

Definition betaOffline : AgentStatus :=
  mkStatus (Some "agent-beta-aiml") "AI/ML Research Agent"
           (Some "artificial-intelligence") offline (Some "").

(** [x || d] for an object or [null]. *)
Definition or_object {A} (x : option A) (d : A) : A :=
  match x with
  | Some a => a
  | None => d
  end.

(** [refreshAll] (lines 620-638): the state after it and how it completed. *)
Definition refreshAll (net : Wire.Net) (st : State) : State * completion unit :=
  let st1 := mkState (alphaStatus st) (betaStatus st) (alphaExchanges st)
                     (betaExchanges st) (activeTasks st) true (autoRefresh st) in
  let joined :=
    alpha ← fetchAgentStatus net 8000;
    beta ← fetchAgentStatus net 8001;
    alphaEx ← fetchExchanges net 8000;
    betaEx ← fetchExchanges net 8001;
    tasks ← fetchTasks net;
    Normal (alpha, beta, alphaEx, betaEx, tasks) in
  match joined with
  | Normal (alpha, beta, alphaEx, betaEx, tasks) =>
      (mkState (Some (or_object alpha alphaOffline))
               (Some (or_object beta betaOffline))
               alphaEx betaEx tasks false (autoRefresh st1),
       Normal tt)
  | Throw e => (st1, Throw e)
  end.

End Legacy.

(** ** Vocabulary of the further properties *)

Module Invariants.
Import Orchestrator.

(** The descriptor [addAgent] derives from a port. *)
Definition derivedConfig (p : Z) : AgentConfig.t :=
  {| AgentConfig.port := p;
     AgentConfig.fallbackId := "agent-" +:+ string_of_number p;
     AgentConfig.fallbackName := "Agent :" +:+ string_of_number p;
     AgentConfig.fallbackDomain := "unknown" |}.

(** The registry is the default registry followed by added descriptors,
    each derived from its port, which is a safe integer and not zero; ports
    are pairwise distinct. *)
Definition registryInv (st : OrchestratorState) : Prop :=
  exists added,
    agentConfigs st = DEFAULT_AGENT_CONFIGS ++ added
    /\ List.NoDup (map AgentConfig.port (agentConfigs st))
    /\ Forall (fun c => c = derivedConfig (AgentConfig.port c)
                        /\ AgentConfig.port c <> 0%Z
                        /\ isSafeInteger (AgentConfig.port c) = true) added.

(** The text of the port input denotes no number, or a safe integer. *)
Definition safeText (value : string) : Prop :=
  match parseInt value with
  | Some p => isSafeInteger p = true
  | None => True
  end.

(** An event that types only such a text. *)
Definition safeEvent (ev : Event) : Prop :=
  match ev with
  | TypePort value => safeText value
  | _ => True
  end.

(** An installed interval belongs to a component whose auto-refresh is on,
    and its [refreshAll] captured the current registry. *)
Definition timerInv (c : Component) : Prop :=
  forall cfg, interval c = Some cfg ->
    autoRefresh (hooks c) = true /\ cfg = agentConfigs (hooks c).


(** How many records name [id] as sender, and how many as (non-empty)
    receiver. *)
Definition sent (id : string) (exchanges : list ExchangeLog.t) : nat :=
  length (List.filter (fun ex => String.eqb (ExchangeLog.sender_agent_id ex) id)
                      exchanges).

Definition received (id : string) (exchanges : list ExchangeLog.t) : nat :=
  length (List.filter
            (fun ex => match ExchangeLog.receiver_agent_id ex with
                       | Some r => negb (String.eqb r "") && String.eqb r id
                       | None => false
                       end)
            exchanges).

(** The health probe of a port succeeds: the complement of [fetchFailed]. *)
Definition probeSucceeds (net : Wire.Net) (c : AgentConfig.t) : bool :=
  negb (Props.fetchFailed (Wire.health net (AgentConfig.port c))).

End Invariants.

(** ** Properties *)

Import Orchestrator AgentNetworkGraph Props Cases.

(** *** The model run on concrete inputs *)

Example parseInt_port : parseInt "8002" = Some 8002%Z.
Proof. reflexivity. Qed.

Example parseInt_empty : parseInt "" = None.
Proof. reflexivity. Qed.

Example parseInt_prefix_of_digits : parseInt " -12.5e3" = Some (-12)%Z.
Proof. reflexivity. Qed.

Example parseInt_hex : parseInt "0x1F" = Some 31%Z.
Proof. reflexivity. Qed.

Example parseInt_no_digit : parseInt "port" = None.
Proof. reflexivity. Qed.

(** Three agents online, nothing exchanged: three edges, none active. *)
Example topology_quiet :
  topologyAfter net_quiet
  = [ ("dkmes-alpha", "agent-beta-aiml", false);
      ("dkmes-alpha", "agent-gamma-analytics", false);
      ("agent-beta-aiml", "agent-gamma-analytics", false) ].
Proof. vm_compute. reflexivity. Qed.

(** One exchange between beta and alpha: that edge alone is active. *)
Example topology_linked :
  topologyAfter net_linked
  = [ ("dkmes-alpha", "agent-beta-aiml", true);
      ("dkmes-alpha", "agent-gamma-analytics", false);
      ("agent-beta-aiml", "agent-gamma-analytics", false) ].
Proof. vm_compute. reflexivity. Qed.

(** Gamma stops answering: it is offline and only the edge between alpha
    and beta remains. *)
Example topology_gamma_down :
  topologyAfter net_gamma_down = [ ("dkmes-alpha", "agent-beta-aiml", true) ]
  /\ map AgentStatus.status
         (agents (fst (refreshAll net_gamma_down DEFAULT_AGENT_CONFIGS initialState)))
     = [online; online; offline].
Proof. split; vm_compute; reflexivity. Qed.

Example getTaskStateIcon_submitted : getTaskStateIcon "TASK_STATE_SUBMITTED" = Clock.
Proof. reflexivity. Qed.

(** *** The three fetch functions always settle normally *)

Lemma fetchAgentStatus_settles (net : Wire.Net) (config : AgentConfig.t) :
  exists a, fetchAgentStatus net config = Normal a
            /\ AgentStatus.port a = AgentConfig.port config.
Proof.
  unfold fetchAgentStatus.
  destruct (Wire.health net (AgentConfig.port config)) as [response|e]; cbn;
    [|eauto].
  destruct (Wire.ok response); cbn; [|eauto].
  destruct (Wire.json response) as [[|body]|e]; cbn; eauto.
Qed.

Lemma fetchExchanges_settles (net : Wire.Net) (p : Z) :
  exists w, fetchExchanges net p = Normal (mkExchangeResult p w).
Proof.
  unfold fetchExchanges.
  destruct (Wire.history net p) as [response|e]; cbn; [|eauto].
  destruct (Wire.ok response); cbn; [|eauto].
  destruct (Wire.json response) as [[|body]|e]; cbn; eauto.
Qed.

Lemma fetchTasks_settles (net : Wire.Net) :
  exists l, fetchTasks net = Normal l.
Proof.
  unfold fetchTasks.
  destruct (Wire.a2a net) as [response|e]; cbn; [|eauto].
  destruct (Wire.ok response); cbn; [|eauto].
  destruct (Wire.json response) as [[|body]|e]; cbn; eauto.
Qed.

(** [Promise.all] of promises that all fulfil is fulfilled, with one value
    per promise and in their order. *)
Lemma Promise_all_fulfilled {A B} (f : A -> completion B) (l : list A) :
  (forall a, In a l -> exists b, f a = Normal b) ->
  exists bs, Promise_all (map f l) = Normal bs
             /\ Forall2 (fun a b => f a = Normal b) l bs.
Proof.
  induction l as [|a l IH]; intros Hall.
  - exists []. split; [reflexivity | constructor].
  - destruct (Hall a (or_introl eq_refl)) as [b Hb].
    destruct IH as (bs & Hbs & HF).
    { intros a' Ha'. apply Hall. now right. }
    exists (b :: bs). split.
    + cbn. rewrite Hb. cbn. rewrite Hbs. reflexivity.
    + constructor; assumption.
Qed.

(** What a round publishes when its requests have settled: the joined
    results, the hooks it does not set left as they were, and the loading
    flag cleared. *)
Lemma refreshAll_settle_publishes (net : Wire.Net) (cfgs : list AgentConfig.t)
      (st : OrchestratorState) :
  exists agentResults exchangeResults tasks,
    Forall2 (fun c a => fetchAgentStatus net c = Normal a) cfgs agentResults
    /\ Forall2 (fun c r => fetchExchanges net (AgentConfig.port c) = Normal r)
               cfgs exchangeResults
    /\ fetchTasks net = Normal tasks
    /\ refreshAll_settle net cfgs st =
       (mkState (agentConfigs st) agentResults (storeByPort exchangeResults) tasks
                (selectedAgent st) false (autoRefresh st) (showAddAgent st)
                (newAgentPort st), Normal tt).
Proof.
  destruct (Promise_all_fulfilled (fun c => fetchAgentStatus net c) cfgs)
    as (ars & Hars & HFa).
  { intros c _. destruct (fetchAgentStatus_settles net c) as (a & Ha & _). eauto. }
  destruct (Promise_all_fulfilled
              (fun c => fetchExchanges net (AgentConfig.port c)) cfgs)
    as (ers & Hers & HFe).
  { intros c _. destruct (fetchExchanges_settles net (AgentConfig.port c)). eauto. }
  destruct (fetchTasks_settles net) as (tasks & Htasks).
  exists ars, ers, tasks. repeat split; try assumption.
  unfold refreshAll_settle, fan_out, await.
  cbn. rewrite Hars. cbn. rewrite Hers. cbn. rewrite Htasks. reflexivity.
Qed.

(** The same for a whole round, from the call to the last setter. *)
Lemma refreshAll_publishes (net : Wire.Net) (cfgs : list AgentConfig.t)
      (st : OrchestratorState) :
  exists agentResults exchangeResults tasks,
    Forall2 (fun c a => fetchAgentStatus net c = Normal a) cfgs agentResults
    /\ Forall2 (fun c r => fetchExchanges net (AgentConfig.port c) = Normal r)
               cfgs exchangeResults
    /\ fetchTasks net = Normal tasks
    /\ refreshAll net cfgs st =
       (mkState (agentConfigs st) agentResults (storeByPort exchangeResults) tasks
                (selectedAgent st) false (autoRefresh st) (showAddAgent st)
                (newAgentPort st), Normal tt).
Proof.
  destruct (refreshAll_settle_publishes net cfgs (fst (refreshAll_start st)))
    as (ars & ers & tasks & HFa & HFe & Htasks & Hrun).
  exists ars, ers, tasks. repeat split; [exact HFa | exact HFe | exact Htasks|].
  exact Hrun.
Qed.

(** *** C1: one status per configured peer *)

(** C1.  For every configured peer list, one aggregation round
    ([refreshAll]) completes normally and publishes a peers list with
    exactly one status per configured descriptor, in their order: the entry
    of a descriptor is the status its probe returned (a value, never an
    error), it carries the descriptor's port, and it is online or offline. *)
Theorem refreshAll_one_status_per_configured_peer
        (net : Wire.Net) (cfgs : list AgentConfig.t) (st : OrchestratorState) :
  exists st',
    refreshAll net cfgs st = (st', Normal tt)
    /\ length (agents st') = length cfgs
    /\ Forall2 (fun c a =>
                  fetchAgentStatus net c = Normal a
                  /\ AgentStatus.port a = AgentConfig.port c
                  /\ (AgentStatus.status a = online \/ AgentStatus.status a = offline))
               cfgs (agents st').
Proof.
  destruct (refreshAll_publishes net cfgs st)
    as (ars & ers & tasks & HFa & _ & _ & Hrun).
  eexists; split; [exact Hrun|]. cbn. split.
  - symmetry. exact (Forall2_length _ _ _ HFa).
  - clear Hrun. induction HFa as [|c a cs as_ Hca _ IH]; constructor; [|exact IH].
    split; [exact Hca|].
    destruct (fetchAgentStatus_settles net c) as (a' & Ha' & Hport).
    rewrite Hca in Ha'. injection Ha' as <-. split; [exact Hport|].
    destruct (AgentStatus.status a); [left|right]; reflexivity.
Qed.

(** *** C2, C10: the health probe *)

(** C2.  Whatever way the health probe of a descriptor fails (the fetch
    rejects, the response is not ok, or its body is not a JSON value with
    properties), [fetchAgentStatus] returns normally a status that is
    offline and whose id, name and domain are the descriptor's fallback
    values; it does not raise. *)
Theorem fetchAgentStatus_failure_yields_offline_fallback
        (net : Wire.Net) (config : AgentConfig.t)
        (Hfail : fetchFailed (Wire.health net (AgentConfig.port config)) = true) :
  exists a,
    fetchAgentStatus net config = Normal a
    /\ AgentStatus.status a = offline
    /\ AgentStatus.agent_id a = AgentConfig.fallbackId config
    /\ AgentStatus.name a = AgentConfig.fallbackName config
    /\ AgentStatus.domain a = AgentConfig.fallbackDomain config
    /\ AgentStatus.port a = AgentConfig.port config.
Proof.
  exists (fallbackStatus config). split; [|repeat split].
  revert Hfail. unfold fetchAgentStatus, fetchFailed.
  destruct (Wire.health net (AgentConfig.port config)) as [response|e]; cbn;
    [|reflexivity].
  destruct (Wire.ok response); cbn; [|reflexivity].
  destruct (Wire.json response) as [[|body]|e]; cbn;
    [reflexivity | discriminate | reflexivity].
Qed.

Lemma fetchAgentStatus_failure_yields_offline_fallback_witness :
  exists a,
    fetchAgentStatus net_partial (AgentConfig.mk 8002 "agent-gamma-analytics"
                                    "CVDT Chatbot Agent" "data-analytics")
    = Normal a
    /\ AgentStatus.status a = offline
    /\ AgentStatus.agent_id a = "agent-gamma-analytics"
    /\ AgentStatus.name a = "CVDT Chatbot Agent"
    /\ AgentStatus.domain a = "data-analytics"
    /\ AgentStatus.port a = 8002%Z.
Proof.
  apply (fetchAgentStatus_failure_yields_offline_fallback
           net_partial
           (AgentConfig.mk 8002 "agent-gamma-analytics" "CVDT Chatbot Agent"
                           "data-analytics")).
  reflexivity.
Defined.

Lemma or_string_spec (x : option string) (d : string) :
  (absent_or_empty x -> or_string x d = d)
  /\ (forall s, x = Some s -> s <> EmptyString -> or_string x d = s).
Proof.
  split.
  - intros [-> | ->]; reflexivity.
  - intros s -> Hs. cbn. destruct (String.eqb_spec s ""); [contradiction|reflexivity].
Qed.

(** C10.  When the health probe succeeds (ok response, body read), the
    status returned is online and each identity field is decided on its
    own: a field the response lacks or gives as the empty string takes the
    descriptor's fallback value, a field it gives non-empty is reported as
    given; so one status can mix reported and fallback fields. *)
Theorem fetchAgentStatus_online_falls_back_per_field
        (net : Wire.Net) (config : AgentConfig.t)
        (response : Wire.Response Wire.HealthBody) (body : Wire.HealthBody)
        (Hfetch : Wire.health net (AgentConfig.port config) = Normal response)
        (Hok : Wire.ok response = true)
        (Hjson : Wire.json response = Normal (PData body)) :
  exists a,
    fetchAgentStatus net config = Normal a
    /\ AgentStatus.status a = online
    /\ (absent_or_empty (Wire.agent_id body) ->
        AgentStatus.agent_id a = AgentConfig.fallbackId config)
    /\ (forall s, Wire.agent_id body = Some s -> s <> EmptyString ->
        AgentStatus.agent_id a = s)
    /\ (absent_or_empty (Wire.agent_name body) ->
        AgentStatus.name a = AgentConfig.fallbackName config)
    /\ (forall s, Wire.agent_name body = Some s -> s <> EmptyString ->
        AgentStatus.name a = s)
    /\ (absent_or_empty (Wire.domain body) ->
        AgentStatus.domain a = AgentConfig.fallbackDomain config)
    /\ (forall s, Wire.domain body = Some s -> s <> EmptyString ->
        AgentStatus.domain a = s).
Proof.
  unfold fetchAgentStatus. rewrite Hfetch. cbn. rewrite Hok. cbn.
  rewrite Hjson. cbn. eexists. split; [reflexivity|]. cbn.
  split; [reflexivity|].
  destruct (or_string_spec (Wire.agent_id body) (AgentConfig.fallbackId config)).
  destruct (or_string_spec (Wire.agent_name body) (AgentConfig.fallbackName config)).
  destruct (or_string_spec (Wire.domain body) (AgentConfig.fallbackDomain config)).
  repeat (split; [assumption|]). assumption.
Qed.

Lemma fetchAgentStatus_online_falls_back_per_field_witness :
  exists a,
    fetchAgentStatus net_partial (AgentConfig.mk 8000 "dkmes-alpha" "DKMES Alpha"
                                                 "knowledge-management")
    = Normal a
    /\ AgentStatus.status a = online
    /\ AgentStatus.agent_id a = "alpha-live"
    /\ AgentStatus.name a = "DKMES Alpha"
    /\ AgentStatus.domain a = "knowledge-management".
Proof.
  destruct (fetchAgentStatus_online_falls_back_per_field
              net_partial
              (AgentConfig.mk 8000 "dkmes-alpha" "DKMES Alpha" "knowledge-management")
              (Wire.mkResponse true
                 (Normal (PData (Wire.mkHealth (Some "alpha-live") (Some "") None
                                               (Some "2024-01-01T00:00:00")))))
              (Wire.mkHealth (Some "alpha-live") (Some "") None
                             (Some "2024-01-01T00:00:00"))
              eq_refl eq_refl eq_refl)
    as (a & Ha & Hon & _ & Hid & Hname & _ & Hdom & _).
  exists a. split; [exact Ha|]. split; [exact Hon|]. split; [|split].
  - apply Hid; [reflexivity | discriminate].
  - apply Hname. right. reflexivity.
  - apply Hdom. left. reflexivity.
Defined.

(** *** C8, C5: the exchange windows and the task list *)

Lemma fetchExchanges_failure (net : Wire.Net) (p : Z) :
  fetchFailed (Wire.history net p) = true ->
  fetchExchanges net p = Normal (mkExchangeResult p []).
Proof.
  unfold fetchExchanges, fetchFailed.
  destruct (Wire.history net p) as [response|e]; cbn; [|reflexivity].
  destruct (Wire.ok response); cbn; [|reflexivity].
  destruct (Wire.json response) as [[|body]|e]; cbn;
    [reflexivity | discriminate | reflexivity].
Qed.

Lemma fetchTasks_failure (net : Wire.Net) :
  fetchFailed (Wire.a2a net) = true -> fetchTasks net = Normal [].
Proof.
  unfold fetchTasks, fetchFailed.
  destruct (Wire.a2a net) as [response|e]; cbn; [|reflexivity].
  destruct (Wire.ok response); cbn; [|reflexivity].
  destruct (Wire.json response) as [[|body]|e]; cbn;
    [reflexivity | discriminate | reflexivity].
Qed.

(** A window that is not empty is the list a successful response carried. *)
Lemma fetchExchanges_reported (net : Wire.Net) (p : Z) (w : list ExchangeLog.t) :
  fetchExchanges net p = Normal (mkExchangeResult p w) -> w <> [] ->
  exists response,
    Wire.history net p = Normal response /\ Wire.ok response = true
    /\ Wire.json response = Normal (PData (Wire.mkHistory (Some w))).
Proof.
  unfold fetchExchanges.
  destruct (Wire.history net p) as [response|e]; cbn; [|congruence].
  destruct (Wire.ok response) eqn:Hok; cbn; [|congruence].
  destruct (Wire.json response) as [[|[[l|]]]|e] eqn:Hjson; cbn; try congruence.
  intros [= <-] _. exists response. auto.
Qed.

Lemma fetchExchanges_success (net : Wire.Net) (p : Z)
      (response : Wire.Response Wire.HistoryBody) (l : list ExchangeLog.t) :
  Wire.history net p = Normal response -> Wire.ok response = true ->
  Wire.json response = Normal (PData (Wire.mkHistory (Some l))) ->
  fetchExchanges net p = Normal (mkExchangeResult p l).
Proof.
  intros Hfetch Hok Hjson. unfold fetchExchanges.
  rewrite Hfetch. cbn. rewrite Hok. cbn. rewrite Hjson. reflexivity.
Qed.

(** The object filled by the [forEach]: a port has an entry exactly when a
    descriptor has that port, and the entry is the window fetched for it. *)
Lemma storeFrom_lookup (net : Wire.Net) (cfgs : list AgentConfig.t)
      (ers : list ExchangeResult) (m : gmap Z (list ExchangeLog.t)) (p : Z) :
  Forall2 (fun c r => fetchExchanges net (AgentConfig.port c) = Normal r) cfgs ers ->
  fold_left (fun (m : gmap Z (list ExchangeLog.t)) res =>
               <[port res := exchanges res]> m) ers m !! p
  = if existsb (fun c => (AgentConfig.port c =? p)%Z) cfgs
    then match fetchExchanges net p with
         | Normal r => Some (exchanges r)
         | Throw _ => None
         end
    else m !! p.
Proof.
  intros HF. revert m. induction HF as [|c r cs rs Hcr _ IH]; intros m.
  - reflexivity.
  - cbn [fold_left existsb]. rewrite IH.
    destruct (existsb (fun c0 => (AgentConfig.port c0 =? p)%Z) cs).
    + rewrite orb_true_r. reflexivity.
    + rewrite orb_false_r.
      destruct (fetchExchanges_settles net (AgentConfig.port c)) as (w & Hw).
      rewrite Hw in Hcr. injection Hcr as <-. cbn [port exchanges].
      destruct (Z.eqb_spec (AgentConfig.port c) p) as [Heq|Hne].
      * rewrite <- Heq, lookup_insert_eq, Hw. reflexivity.
      * rewrite lookup_insert_ne by exact Hne. reflexivity.
Qed.

Lemma storeByPort_lookup (net : Wire.Net) (cfgs : list AgentConfig.t)
      (ers : list ExchangeResult) (p : Z) (w : list ExchangeLog.t) :
  Forall2 (fun c r => fetchExchanges net (AgentConfig.port c) = Normal r) cfgs ers ->
  storeByPort ers !! p = Some w <->
  (exists c, In c cfgs /\ AgentConfig.port c = p)
  /\ fetchExchanges net p = Normal (mkExchangeResult p w).
Proof.
  intros HF. unfold storeByPort. rewrite (storeFrom_lookup net cfgs ers ∅ p HF).
  destruct (fetchExchanges_settles net p) as (w' & Hw'). rewrite Hw'. cbn.
  destruct (existsb (fun c => (AgentConfig.port c =? p)%Z) cfgs) eqn:Hex.
  - apply existsb_exists in Hex. destruct Hex as (c & Hc & Hp).
    apply Z.eqb_eq in Hp. split.
    + intros [= ->]. split; [eauto | reflexivity].
    + intros [_ [= ->]]. reflexivity.
  - rewrite lookup_empty. split; [discriminate|].
    intros [(c & Hc & Hp) _]. exfalso.
    assert (existsb (fun c => (AgentConfig.port c =? p)%Z) cfgs = true) as Habs.
    { apply existsb_exists. exists c. split; [exact Hc | now apply Z.eqb_eq]. }
    congruence.
Qed.

(** C8.  A failed exchange-history fetch yields the empty window and a
    failed task-registry call the empty task list; both functions always
    return normally; and the round always completes: it clears the loading
    flag, stores the empty window for each configured peer whose history
    failed and the fetched window for every other one, and the empty task
    list when the registry failed. *)
Theorem fetch_failures_yield_empty_lists_and_round_completes
        (net : Wire.Net) (cfgs : list AgentConfig.t) (st : OrchestratorState) :
  (forall p, fetchFailed (Wire.history net p) = true ->
             fetchExchanges net p = Normal (mkExchangeResult p []))
  /\ (fetchFailed (Wire.a2a net) = true -> fetchTasks net = Normal [])
  /\ (forall p, exists w, fetchExchanges net p = Normal (mkExchangeResult p w))
  /\ (exists l, fetchTasks net = Normal l)
  /\ exists st',
       refreshAll net cfgs st = (st', Normal tt)
       /\ loading st' = false
       /\ (forall c, In c cfgs ->
             fetchFailed (Wire.history net (AgentConfig.port c)) = true ->
             exchangesByPort st' !! AgentConfig.port c = Some [])
       /\ (forall c w, In c cfgs ->
             fetchExchanges net (AgentConfig.port c)
             = Normal (mkExchangeResult (AgentConfig.port c) w) ->
             exchangesByPort st' !! AgentConfig.port c = Some w)
       /\ (fetchFailed (Wire.a2a net) = true -> activeTasks st' = []).
Proof.
  split; [exact (fetchExchanges_failure net)|].
  split; [exact (fetchTasks_failure net)|].
  split; [exact (fetchExchanges_settles net)|].
  split; [exact (fetchTasks_settles net)|].
  destruct (refreshAll_publishes net cfgs st)
    as (ars & ers & tasks & _ & HFe & Htasks & Hrun).
  eexists; split; [exact Hrun|]. cbn. split; [reflexivity|].
  assert (forall c w, In c cfgs ->
            fetchExchanges net (AgentConfig.port c)
            = Normal (mkExchangeResult (AgentConfig.port c) w) ->
            storeByPort ers !! AgentConfig.port c = Some w) as Hstored.
  { intros c w Hc Hw. apply (storeByPort_lookup net cfgs ers _ _ HFe). eauto. }
  split; [|split].
  - intros c Hc Hfail. apply Hstored; [exact Hc|].
    now apply fetchExchanges_failure.
  - exact Hstored.
  - intros Hfail. rewrite (fetchTasks_failure net Hfail) in Htasks. congruence.
Qed.

Lemma fetch_failures_yield_empty_lists_and_round_completes_witness :
  fetchExchanges net_partial 8001 = Normal (mkExchangeResult 8001 [])
  /\ fetchExchanges net_partial 8002 = Normal (mkExchangeResult 8002 [])
  /\ fetchTasks net_partial = Normal []
  /\ exists st',
       refreshAll net_partial DEFAULT_AGENT_CONFIGS initialState = (st', Normal tt)
       /\ exchangesByPort st' !! 8001%Z = Some []
       /\ exchangesByPort st' !! 8000%Z = Some [exchange_alpha_beta]
       /\ activeTasks st' = [].
Proof.
  destruct (fetch_failures_yield_empty_lists_and_round_completes
              net_partial DEFAULT_AGENT_CONFIGS initialState)
    as (Hex & Htasks & _ & _ & st' & Hrun & _ & Hempty & Hkept & Hnone).
  split; [apply Hex; reflexivity|].
  split; [apply Hex; reflexivity|].
  split; [apply Htasks; reflexivity|].
  exists st'. split; [exact Hrun|]. split; [|split].
  - apply (Hempty (AgentConfig.mk 8001 "agent-beta-aiml" "AI/ML Research Agent"
                                  "artificial-intelligence"));
      [cbn; tauto | reflexivity].
  - apply (Hkept (AgentConfig.mk 8000 "dkmes-alpha" "DKMES Alpha"
                                 "knowledge-management"));
      [cbn; tauto | reflexivity].
  - apply Hnone. reflexivity.
Defined.

(** C5, as the code has it.  A round stores, for each configured peer whose
    history fetch succeeds, exactly the list of records the peer reported;
    and every record found in the store is a record some configured peer
    reported.  Confidence included: nothing is clamped or altered. *)
Theorem refreshAll_stores_records_as_reported
        (net : Wire.Net) (cfgs : list AgentConfig.t) (st : OrchestratorState) :
  exists st',
    refreshAll net cfgs st = (st', Normal tt)
    /\ (forall c response l,
          In c cfgs ->
          Wire.history net (AgentConfig.port c) = Normal response ->
          Wire.ok response = true ->
          Wire.json response = Normal (PData (Wire.mkHistory (Some l))) ->
          exchangesByPort st' !! AgentConfig.port c = Some l)
    /\ (forall p w ex,
          exchangesByPort st' !! p = Some w -> In ex w ->
          exists c response,
            In c cfgs /\ AgentConfig.port c = p
            /\ Wire.history net p = Normal response /\ Wire.ok response = true
            /\ Wire.json response = Normal (PData (Wire.mkHistory (Some w)))).
Proof.
  destruct (refreshAll_publishes net cfgs st)
    as (ars & ers & tasks & _ & HFe & _ & Hrun).
  eexists; split; [exact Hrun|]. cbn. split.
  - intros c response l Hc Hfetch Hok Hjson.
    apply (storeByPort_lookup net cfgs ers _ _ HFe). split; [eauto|].
    now apply (fetchExchanges_success net _ response).
  - intros p w ex Hlook Hex.
    apply (storeByPort_lookup net cfgs ers _ _ HFe) in Hlook.
    destruct Hlook as [(c & Hc & Hp) Hw].
    destruct (fetchExchanges_reported net p w Hw) as (response & H1 & H2 & H3).
    { intros ->. destruct Hex. }
    exists c, response. auto.
Qed.

Lemma refreshAll_stores_records_as_reported_witness :
  exists st',
    refreshAll net_partial DEFAULT_AGENT_CONFIGS initialState = (st', Normal tt)
    /\ exchangesByPort st' !! 8000%Z = Some [exchange_alpha_beta].
Proof.
  destruct (refreshAll_stores_records_as_reported
              net_partial DEFAULT_AGENT_CONFIGS initialState)
    as (st' & Hrun & Hstored & _).
  exists st'. split; [exact Hrun|].
  apply (Hstored (AgentConfig.mk 8000 "dkmes-alpha" "DKMES Alpha"
                                 "knowledge-management")
                 (Wire.mkResponse true
                    (Normal (PData (Wire.mkHistory (Some [exchange_alpha_beta])))))
                 [exchange_alpha_beta]);
    [cbn; tauto | reflexivity | reflexivity | reflexivity].
Defined.

(** C5, as stated, fails: a peer that reports a record with confidence 1.5
    has it stored, and handed to the graph, with confidence 1.5. *)
Lemma stored_confidence_out_of_range :
  let st' := fst (refreshAll net_partial DEFAULT_AGENT_CONFIGS initialState) in
  exchangesByPort st' !! 8000%Z = Some [exchange_alpha_beta]
  /\ In exchange_alpha_beta (graphExchanges st')
  /\ ~ confidence_in_range exchange_alpha_beta.
Proof.
  cbv zeta. split; [vm_compute; reflexivity|]. split.
  - vm_compute. left. reflexivity.
  - intros [_ Hle]. vm_compute in Hle. apply Hle. reflexivity.
Qed.

(** *** C9: task state labels *)

Lemma stateColor_injective (s1 s2 : TaskState) :
  stateColor s1 = stateColor s2 -> s1 = s2.
Proof. destruct s1, s2; cbn; intros H; try reflexivity; discriminate H. Qed.

(** C9.  [getTaskStateColor] is a fixed table from external labels to the
    five task states, each shown in its own colour: every label is mapped
    (the function is total), a label of the table goes to its state, and any
    other label goes to Unknown. *)
Theorem getTaskStateColor_maps_every_label (label : string) :
  exists s,
    getTaskStateColor label = stateColor s
    /\ (forall s', getTaskStateColor label = stateColor s' -> s' = s)
    /\ match labelOf s with
       | Some known => label = known
       | None => forall s', labelOf s' <> Some label
       end.
Proof.
  unfold getTaskStateColor.
  destruct (String.eqb_spec label "TASK_STATE_COMPLETED") as [->|H1].
  { exists Completed. repeat split. intros s' H. now apply stateColor_injective. }
  destruct (String.eqb_spec label "TASK_STATE_FAILED") as [->|H2].
  { exists Failed. repeat split. intros s' H. now apply stateColor_injective. }
  destruct (String.eqb_spec label "TASK_STATE_WORKING") as [->|H3].
  { exists Working. repeat split. intros s' H. now apply stateColor_injective. }
  destruct (String.eqb_spec label "TASK_STATE_SUBMITTED") as [->|H4].
  { exists Submitted. repeat split. intros s' H. now apply stateColor_injective. }
  exists Unknown. split; [reflexivity|]. split.
  - intros s' H. now apply stateColor_injective.
  - intros [] [=]; congruence.
Qed.

Lemma getTaskStateColor_maps_every_label_witness :
  exists s,
    getTaskStateColor "TASK_STATE_CANCELED" = stateColor s /\ s = Unknown.
Proof.
  destruct (getTaskStateColor_maps_every_label "TASK_STATE_CANCELED")
    as (s & Hs & Huniq & _).
  exists s. split; [exact Hs|]. symmetry. apply Huniq. reflexivity.
Defined.

(** *** C6: adding a peer *)

Lemma existsb_port_In (p : Z) (cfgs : list AgentConfig.t) :
  existsb (fun c => (AgentConfig.port c =? p)%Z) cfgs = true
  <-> In p (map AgentConfig.port cfgs).
Proof.
  rewrite existsb_exists, in_map_iff. split.
  - intros (c & Hc & Heq). apply Z.eqb_eq in Heq. eauto.
  - intros (c & Heq & Hc). exists c. split; [exact Hc | now apply Z.eqb_eq].
Qed.

(** C6, as the code has it.  The typed text parses to a port that is a
    safe integer.  When some descriptor already has that port, [addAgent]
    changes nothing at all (registry, form and every other hook) and
    returns normally, without a value or an error.  When the port is not
    zero and no descriptor has it, the whole descriptor (the port and the
    three fallback values derived from it) is appended in one update, the
    input is cleared and the form closed; the other hooks are left as they
    were. *)
Theorem addAgent_rejects_duplicate_silently_adds_fresh
        (st : OrchestratorState) (p : Z)
        (Hparse : parseInt (newAgentPort st) = Some p)
        (Hsafe : isSafeInteger p = true) :
  (In p (map AgentConfig.port (agentConfigs st)) -> addAgent st = (st, Normal tt))
  /\ (p <> 0%Z -> ~ In p (map AgentConfig.port (agentConfigs st)) ->
      addAgent st =
      (mkState (agentConfigs st ++
                [ AgentConfig.mk p ("agent-" +:+ string_of_number p)
                                 ("Agent :" +:+ string_of_number p) "unknown" ])
               (agents st) (exchangesByPort st) (activeTasks st) (selectedAgent st)
               (loading st) (autoRefresh st) false "",
       Normal tt)).
Proof.
  unfold addAgent. rewrite Hparse. cbn [truthy_number]. split.
  - intros Hdup. apply existsb_port_In in Hdup. rewrite Hdup.
    rewrite andb_false_r. reflexivity.
  - intros Hnz Hfresh.
    destruct (existsb (fun c => (AgentConfig.port c =? p)%Z) (agentConfigs st)) eqn:Hex.
    { apply existsb_port_In in Hex. contradiction. }
    apply Z.eqb_neq in Hnz. rewrite Hnz. reflexivity.
Qed.

Lemma addAgent_rejects_duplicate_silently_adds_fresh_witness :
  addAgent (form_with "8001") = (form_with "8001", Normal tt)
  /\ addAgent (form_with "8003") =
     (mkState (DEFAULT_AGENT_CONFIGS ++
               [ AgentConfig.mk 8003 "agent-8003" "Agent :8003" "unknown" ])
              [] ∅ [] None false true false "",
      Normal tt).
Proof.
  split.
  - apply (proj1 (addAgent_rejects_duplicate_silently_adds_fresh
                    (form_with "8001") 8001%Z eq_refl eq_refl)).
    cbn. tauto.
  - apply (proj2 (addAgent_rejects_duplicate_silently_adds_fresh
                    (form_with "8003") 8003%Z eq_refl eq_refl)).
    + discriminate.
    + cbn. intros [H|[H|[H|[]]]]; discriminate H.
Defined.

(** The ports of the registry stay pairwise distinct: they are so in the
    default registry, and [addAgent] and [removeAgent] keep them so. *)
Lemma registry_ports_distinct (st : OrchestratorState) (p : Z) :
  List.NoDup (map AgentConfig.port DEFAULT_AGENT_CONFIGS)
  /\ (List.NoDup (map AgentConfig.port (agentConfigs st)) ->
      List.NoDup (map AgentConfig.port (agentConfigs (fst (addAgent st))))
      /\ List.NoDup (map AgentConfig.port (agentConfigs (fst (removeAgent p st))))).
Proof.
  split.
  - cbn. repeat constructor; cbn; intuition discriminate.
  - intros Hnd. split.
    + unfold addAgent. destruct (parseInt (newAgentPort st)) as [q|]; [|exact Hnd].
      destruct (existsb (fun c => (AgentConfig.port c =? q)%Z) (agentConfigs st))
        eqn:Hex; [rewrite andb_false_r; exact Hnd|].
      destruct (truthy_number (Some q)); [|exact Hnd].
      unfold mbind, action_bind, setAgentConfigs, setNewAgentPort, setShowAddAgent.
      cbn [andb negb fst agentConfigs]. rewrite List.map_app. cbn [map AgentConfig.port].
      apply List.NoDup_rev in Hnd. rewrite <- (rev_involutive (_ ++ [q])).
      apply List.NoDup_rev. rewrite rev_app_distr. cbn. constructor; [|exact Hnd].
      rewrite <- in_rev. intros Hin. apply existsb_port_In in Hin. congruence.
    + cbn. induction (agentConfigs st) as [|c l IH]; [constructor|].
      cbn in Hnd. apply List.NoDup_cons_iff in Hnd. destruct Hnd as [Hc Hnd].
      cbn. destruct (negb (AgentConfig.port c =? p)%Z); [|now apply IH].
      cbn. constructor; [|now apply IH].
      intros Hin. apply Hc. apply in_map_iff in Hin.
      destruct Hin as (c' & Heq & Hin). apply filter_In in Hin.
      rewrite <- Heq. apply in_map. tauto.
Qed.

(** C6, as stated, fails: for a duplicate port the caller gets no
    ValidationError.  The call completes normally, exactly as a successful
    add does, and raises nothing. *)
Lemma addAgent_duplicate_returns_no_error :
  fst (addAgent (form_with "8001")) = form_with "8001"
  /\ snd (addAgent (form_with "8001")) = Normal tt
  /\ snd (addAgent (form_with "8001")) = snd (addAgent (form_with "8003"))
  /\ ~ exists e, snd (addAgent (form_with "8001")) = Throw e.
Proof.
  repeat split; try reflexivity. intros [e He]. discriminate He.
Qed.

(** *** C7: rounds in flight *)

Lemma callRefreshAll_in_flight (cfg : list AgentConfig.t) (c : Component) :
  inflight (callRefreshAll cfg c) <> [].
Proof. cbn. intros H. apply app_eq_nil in H. destruct H as [_ H]. discriminate H. Qed.

Lemma runEffect_in_flight (c : Component) : inflight (runEffect c) <> [].
Proof.
  unfold runEffect. destruct (autoRefresh (hooks c)); cbn;
    intros H; apply app_eq_nil in H; destruct H as [_ H]; discriminate H.
Qed.

Lemma addAgent_keeps_loading (st : OrchestratorState) :
  loading (fst (addAgent st)) = loading st.
Proof.
  unfold addAgent. destruct (parseInt (newAgentPort st)) as [p|]; [|reflexivity].
  destruct (truthy_number (Some p)
            && negb (existsb (fun c => (AgentConfig.port c =? p)%Z) (agentConfigs st)));
    reflexivity.
Qed.

Lemma refreshAll_settle_clears_loading (net : Wire.Net) (cfg : list AgentConfig.t)
      (st : OrchestratorState) :
  loading (fst (refreshAll_settle net cfg st)) = false.
Proof.
  destruct (refreshAll_settle_publishes net cfg st) as (? & ? & ? & _ & _ & _ & ->).
  reflexivity.
Qed.

(** Every event keeps the invariant. *)
Lemma step_loadingMeansInFlight (c : Component) (ev : Event) :
  loadingMeansInFlight c -> loadingMeansInFlight (step c ev).
Proof.
  unfold loadingMeansInFlight. intros Hinv.
  destruct ev as [ | | |k net|checked| |value| |p]; cbn [step].
  - intros _. apply runEffect_in_flight.
  - destruct (interval c); [intros _; apply callRefreshAll_in_flight | exact Hinv].
  - destruct (loading (hooks c));
      [intros _; now apply Hinv | intros _; apply callRefreshAll_in_flight].
  - destruct (inflight c !! k); [|exact Hinv].
    cbn. rewrite refreshAll_settle_clears_loading. discriminate.
  - destruct (Bool.eqb checked (autoRefresh (hooks c)));
      [exact Hinv | intros _; apply runEffect_in_flight].
  - exact Hinv.
  - destruct (showAddAgent (hooks c)); exact Hinv.
  - destruct (showAddAgent (hooks c)); [|exact Hinv].
    destruct (Nat.eqb _ _); [|intros _; apply runEffect_in_flight].
    cbn. rewrite addAgent_keeps_loading. exact Hinv.
  - destruct (removable (hooks c) p); [intros _; apply runEffect_in_flight | exact Hinv].
Qed.

Lemma run_loadingMeansInFlight (evs : list Event) (c : Component) :
  loadingMeansInFlight c -> loadingMeansInFlight (run c evs).
Proof.
  revert c. induction evs as [|ev evs IH]; intros c Hinv; [exact Hinv|].
  cbn. apply IH. now apply step_loadingMeansInFlight.
Qed.

(** C7, as the code has it.  While the loading flag is set a click on
    Refresh starts nothing and changes nothing, and in every state the
    component reaches the flag is only set while a round is in flight.  The
    interval is not gated: once installed, it starts a further round each
    time it fires, whatever is in flight. *)
Theorem refresh_click_ignored_while_loading_interval_not :
  (forall c, loading (hooks c) = true -> step c ClickRefresh = c)
  /\ (forall evs, loading (hooks (run unmounted evs)) = true ->
                  inflight (run unmounted evs) <> [])
  /\ (forall c cfg, interval c = Some cfg ->
        inflight (step c IntervalFires) = inflight c ++ [cfg]).
Proof.
  split; [|split].
  - intros c Hloading. cbn. rewrite Hloading. reflexivity.
  - intros evs. apply (run_loadingMeansInFlight evs unmounted). discriminate.
  - intros c cfg Hcfg. cbn. rewrite Hcfg. reflexivity.
Qed.

Lemma refresh_click_ignored_while_loading_interval_not_witness :
  step (step unmounted Mount) ClickRefresh = step unmounted Mount
  /\ inflight (run unmounted [Mount; ClickRefresh]) <> []
  /\ inflight (step (step unmounted Mount) IntervalFires)
     = [DEFAULT_AGENT_CONFIGS; DEFAULT_AGENT_CONFIGS].
Proof.
  destruct refresh_click_ignored_while_loading_interval_not
    as (Hclick & Hflag & Htick).
  split; [exact (Hclick (step unmounted Mount) eq_refl)|].
  split; [exact (Hflag [Mount; ClickRefresh] eq_refl)|].
  exact (Htick (step unmounted Mount) DEFAULT_AGENT_CONFIGS eq_refl).
Defined.

(** C7, as stated, fails: the component mounts and starts its first round;
    the interval fires before that round has settled; a second round is
    started and two rounds are in flight. *)
Lemma two_rounds_in_flight :
  inflight (step unmounted Mount) = [DEFAULT_AGENT_CONFIGS]
  /\ loading (hooks (step unmounted Mount)) = true
  /\ length (inflight (run unmounted [Mount; IntervalFires])) = 2.
Proof. repeat split. Qed.

(** *** The loops of the topology builder, by recursion on the list *)

Lemma flat_map_seq_shift {A} (f : nat -> list A) (s n : nat) :
  flat_map f (seq (S s) n) = flat_map (fun i => f (S i)) (seq s n).
Proof.
  revert s. induction n as [|n IH]; intros s; [reflexivity|].
  cbn [seq flat_map]. now rewrite IH.
Qed.

Lemma flat_map_lookup_seq {A B} (g : A -> B) (r : list A) :
  flat_map (fun j => match r !! j with Some b => [g b] | None => [] end)
           (seq 0 (length r))
  = map g r.
Proof.
  induction r as [|b r IH]; [reflexivity|].
  cbn [length seq flat_map map]. rewrite flat_map_seq_shift, <- IH.
  reflexivity.
Qed.

Lemma meshLoops_cons (exchanges : list ExchangeLog.t) (a : AgentStatus.t)
      (rest : list AgentStatus.t) :
  meshLoops exchanges (a :: rest)
  = map (pushEdge exchanges a) rest ++ meshLoops exchanges rest.
Proof.
  unfold meshLoops. cbn [length seq flat_map Nat.sub]. f_equal.
  - rewrite Nat.sub_0_r, flat_map_seq_shift.
    rewrite <- (flat_map_lookup_seq (pushEdge exchanges a)). reflexivity.
  - rewrite flat_map_seq_shift. apply flat_map_ext. intros i.
    cbn [Nat.sub]. rewrite flat_map_seq_shift. reflexivity.
Qed.

Lemma meshLoops_mesh (exchanges : list ExchangeLog.t) (l : list AgentStatus.t) :
  meshLoops exchanges l = mesh exchanges l.
Proof.
  induction l as [|a rest IH]; [reflexivity|].
  rewrite meshLoops_cons, IH. reflexivity.
Qed.

Lemma initialEdges_mesh (agents : list AgentStatus.t) (exchanges : list ExchangeLog.t) :
  initialEdges agents exchanges
  = mesh exchanges (List.filter (fun a => is_online (AgentStatus.status a)) agents).
Proof. apply meshLoops_mesh. Qed.

(** *** C4: which edges are active *)

Lemma receiver_is_spec (ex : ExchangeLog.t) (x : string) :
  receiver_is ex x = true <-> ExchangeLog.receiver_agent_id ex = Some x.
Proof.
  unfold receiver_is. destruct (ExchangeLog.receiver_agent_id ex) as [r|].
  - rewrite String.eqb_eq. split; congruence.
  - split; discriminate.
Qed.

Lemma hasExchange_spec (exchanges : list ExchangeLog.t) (a b : string) :
  hasExchange exchanges a b = true <-> exists ex, In ex exchanges /\ links ex a b.
Proof.
  unfold hasExchange, links. rewrite existsb_exists.
  split; intros (ex & Hin & H); exists ex; (split; [exact Hin|]).
  - rewrite orb_true_iff, !andb_true_iff, !String.eqb_eq, !receiver_is_spec in H.
    exact H.
  - rewrite orb_true_iff, !andb_true_iff, !String.eqb_eq, !receiver_is_spec.
    exact H.
Qed.

Lemma in_mesh (exchanges : list ExchangeLog.t) (l : list AgentStatus.t) (e : Edge) :
  In e (mesh exchanges l) ->
  exists a b, In a l /\ In b l /\ e = pushEdge exchanges a b.
Proof.
  induction l as [|c r IH]; cbn [mesh]; [intros []|].
  rewrite in_app_iff, in_map_iff. intros [(b & <- & Hb) | Hin].
  - exists c, b. cbn. auto.
  - destruct (IH Hin) as (a & b & Ha & Hb & ->). exists a, b. cbn. auto.
Qed.

Lemma graphExchanges_spec (st : OrchestratorState) (ex : ExchangeLog.t) :
  In ex (graphExchanges st) <->
  exists p w, exchangesByPort st !! p = Some w /\ In ex w.
Proof.
  unfold graphExchanges. rewrite in_concat. split.
  - intros (w & Hw & Hex). apply in_map_iff in Hw.
    destruct Hw as ([p w'] & <- & Hpw).
    apply list_elem_of_In, elem_of_map_to_list in Hpw. eauto.
  - intros (p & w & Hlook & Hex). exists w. split; [|exact Hex].
    apply in_map_iff. exists (p, w). split; [reflexivity|].
    now apply list_elem_of_In, elem_of_map_to_list.
Qed.

(** C4.  Every edge of the topology, whether built at first render or
    rebuilt by the effect, is marked active (animated) exactly when some
    exchange record handed to the graph names its two ends as sender and
    receiver, in one direction or the other; and after a round these
    records are those of the windows the round collected from the
    configured peers. *)
Theorem edge_active_iff_exchange_links_its_ends :
  (forall agents exchanges e,
      In e (initialEdges agents exchanges) \/ In e (newEdges agents exchanges) ->
      (animated e = true <->
       exists ex, In ex exchanges /\ links ex (source e) (target e)))
  /\ (forall net cfgs st,
        exists st',
          refreshAll net cfgs st = (st', Normal tt)
          /\ forall e, In e (topology st') ->
               (animated e = true <->
                exists c w ex,
                  In c cfgs
                  /\ fetchExchanges net (AgentConfig.port c)
                     = Normal (mkExchangeResult (AgentConfig.port c) w)
                  /\ In ex w
                  /\ links ex (source e) (target e))).
Proof.
  assert (forall agents exchanges e,
             In e (initialEdges agents exchanges) ->
             (animated e = true <->
              exists ex, In ex exchanges /\ links ex (source e) (target e))) as Hgraph.
  { intros agents exchanges e He. rewrite initialEdges_mesh in He.
    destruct (in_mesh _ _ _ He) as (a & b & _ & _ & ->). cbn.
    apply hasExchange_spec. }
  split.
  - intros agents exchanges e [He|He]; now apply (Hgraph agents).
  - intros net cfgs st.
    destruct (refreshAll_publishes net cfgs st)
      as (ars & ers & tasks & _ & HFe & _ & Hrun).
    eexists; split; [exact Hrun|]. intros e He.
    unfold topology in He. rewrite (Hgraph _ _ _ He). split.
    + intros (ex & Hex & Hlinks). apply graphExchanges_spec in Hex.
      destruct Hex as (p & w & Hlook & Hexw). cbn in Hlook.
      apply (storeByPort_lookup net cfgs ers _ _ HFe) in Hlook.
      destruct Hlook as [(c & Hc & <-) Hw]. exists c, w, ex. auto.
    + intros (c & w & ex & Hc & Hw & Hexw & Hlinks). exists ex.
      split; [|exact Hlinks]. apply graphExchanges_spec.
      exists (AgentConfig.port c), w. split; [|exact Hexw]. cbn.
      apply (storeByPort_lookup net cfgs ers _ _ HFe). eauto.
Qed.

Lemma edge_active_iff_exchange_links_its_ends_witness :
  let st' := fst (refreshAll net_linked DEFAULT_AGENT_CONFIGS initialState) in
  exists e,
    In e (topology st')
    /\ source e = "dkmes-alpha" /\ target e = "agent-beta-aiml"
    /\ animated e = true.
Proof.
  cbv zeta.
  set (st' := fst (refreshAll net_linked DEFAULT_AGENT_CONFIGS initialState)).
  set (e := pushEdge [exchange_beta_alpha]
              (AgentStatus.mk "dkmes-alpha" "DKMES Alpha" "knowledge-management"
                              online 8000 (Some "t"))
              (AgentStatus.mk "agent-beta-aiml" "AI/ML Research Agent"
                              "artificial-intelligence" online 8001 (Some "t"))).
  assert (In e (topology st')) as Hin by (vm_compute; left; reflexivity).
  exists e. split; [exact Hin|]. split; [reflexivity|]. split; [reflexivity|].
  apply (proj1 edge_active_iff_exchange_links_its_ends
               (agents st') (graphExchanges st') e (or_introl Hin)).
  exists exchange_beta_alpha. split.
  - vm_compute. left. reflexivity.
  - right. split; reflexivity.
Defined.

(** *** C3: the edges of the mesh *)

Section Mesh.

Variable exchanges : list ExchangeLog.t.

Lemma joins_pushEdge (a b : AgentStatus.t) (x y : string) :
  joins (pushEdge exchanges a b) x y
  = (String.eqb (AgentStatus.agent_id a) x && String.eqb (AgentStatus.agent_id b) y)
    || (String.eqb (AgentStatus.agent_id a) y && String.eqb (AgentStatus.agent_id b) x).
Proof. reflexivity. Qed.

Lemma joins_sym (e : Edge) (x y : string) : joins e x y = joins e y x.
Proof. unfold joins. apply orb_comm. Qed.

Lemma filter_none {A} (f : A -> bool) (l : list A) :
  (forall a, In a l -> f a = false) -> List.filter f l = [].
Proof.
  induction l as [|a l IH]; intros H; [reflexivity|].
  cbn. rewrite (H a (or_introl eq_refl)). apply IH. intros b Hb. apply H. now right.
Qed.

Lemma in_ids (a : AgentStatus.t) (l : list AgentStatus.t) :
  In a l -> In (AgentStatus.agent_id a) (ids l).
Proof. apply in_map. Qed.

(** No edge of the mesh touches an id that no meshed agent has. *)
Lemma mesh_none_joining (l : list AgentStatus.t) (x y : string) :
  ~ In x (ids l) -> List.filter (fun e => joins e x y) (mesh exchanges l) = [].
Proof.
  intros Hx. apply filter_none. intros e He.
  destruct (in_mesh _ _ _ He) as (a & b & Ha & Hb & ->).
  rewrite joins_pushEdge.
  destruct (String.eqb_spec (AgentStatus.agent_id a) x) as [<-|_].
  { exfalso. apply Hx. now apply in_ids. }
  destruct (String.eqb_spec (AgentStatus.agent_id b) x) as [<-|_].
  { exfalso. apply Hx. now apply in_ids. }
  cbn. now rewrite andb_false_r.
Qed.

(** The edges pushed for one source [c]: none joins two ids that are both
    different from the id of [c]. *)
Lemma row_none_joining (c : AgentStatus.t) (r : list AgentStatus.t) (x y : string) :
  AgentStatus.agent_id c <> x -> AgentStatus.agent_id c <> y ->
  List.filter (fun e => joins e x y) (map (pushEdge exchanges c) r) = [].
Proof.
  intros Hx Hy. apply filter_none. intros e He.
  apply in_map_iff in He. destruct He as (b & <- & _).
  rewrite joins_pushEdge.
  apply String.eqb_neq in Hx, Hy. now rewrite Hx, Hy.
Qed.

(** The edges pushed for one source [c] whose id none of the targets has:
    exactly one of them joins [c] to a given target id, when the target ids
    are distinct. *)
Lemma row_one_joining (c : AgentStatus.t) (r : list AgentStatus.t) (y : string) :
  List.NoDup (ids r) -> In y (ids r) -> ~ In (AgentStatus.agent_id c) (ids r) ->
  length (List.filter (fun e => joins e (AgentStatus.agent_id c) y)
                      (map (pushEdge exchanges c) r)) = 1.
Proof.
  induction r as [|b r IH]; intros Hnd Hy Hc; [destruct Hy|].
  cbn [ids map] in *. apply List.NoDup_cons_iff in Hnd. destruct Hnd as [Hb Hnd].
  assert (AgentStatus.agent_id b <> AgentStatus.agent_id c) as Hbc.
  { intros Heq. apply Hc. now left. }
  assert (~ In (AgentStatus.agent_id c) (ids r)) as Hc'.
  { intros H. apply Hc. now right. }
  cbn [List.filter]. rewrite joins_pushEdge, String.eqb_refl.
  apply String.eqb_neq in Hbc. rewrite Hbc, andb_false_r, orb_false_r. cbn [andb].
  destruct (String.eqb_spec (AgentStatus.agent_id b) y) as [Heq|Hne].
  - cbn [length]. f_equal.
    rewrite filter_none; [reflexivity|]. intros e He.
    apply in_map_iff in He. destruct He as (b' & <- & Hb').
    rewrite joins_pushEdge, String.eqb_refl. cbn [andb].
    assert (AgentStatus.agent_id b' <> y) as Hb'y.
    { intros H. apply Hb. rewrite Heq, <- H. now apply in_ids. }
    assert (AgentStatus.agent_id b' <> AgentStatus.agent_id c) as Hb'c.
    { intros H. apply Hc'. rewrite <- H. now apply in_ids. }
    apply String.eqb_neq in Hb'y, Hb'c. now rewrite Hb'y, Hb'c, andb_false_r.
  - apply IH; [exact Hnd | | exact Hc'].
    destruct Hy as [Hy|Hy]; [contradiction | exact Hy].
Qed.

(** With distinct ids, exactly one edge of the mesh joins two given ids. *)
Lemma mesh_one_joining (l : list AgentStatus.t) (x y : string) :
  List.NoDup (ids l) -> In x (ids l) -> In y (ids l) -> x <> y ->
  length (List.filter (fun e => joins e x y) (mesh exchanges l)) = 1.
Proof.
  induction l as [|c r IH]; intros Hnd Hx Hy Hxy; [destruct Hx|].
  cbn [ids map] in Hnd, Hx, Hy. apply List.NoDup_cons_iff in Hnd.
  destruct Hnd as [Hc Hnd].
  cbn [mesh]. rewrite List.filter_app, length_app.
  destruct Hx as [Hx|Hx]; destruct Hy as [Hy|Hy].
  - congruence.
  - subst x. rewrite (row_one_joining c r y Hnd Hy Hc).
    rewrite (mesh_none_joining r _ y Hc). reflexivity.
  - subst y.
    rewrite (List.filter_ext _ (fun e => joins e (AgentStatus.agent_id c) x)
               (fun e => joins_sym e x (AgentStatus.agent_id c))).
    rewrite (row_one_joining c r x Hnd Hx Hc).
    rewrite (List.filter_ext _ (fun e => joins e (AgentStatus.agent_id c) x)
               (fun e => joins_sym e x (AgentStatus.agent_id c))).
    rewrite (mesh_none_joining r _ x Hc). reflexivity.
  - rewrite row_none_joining; [now apply IH | |]; intros Heq; apply Hc;
      rewrite Heq; assumption.
Qed.

(** With distinct ids, no edge of the mesh joins an id to itself. *)
Lemma mesh_no_loop (l : list AgentStatus.t) (e : Edge) :
  List.NoDup (ids l) -> In e (mesh exchanges l) -> source e <> target e.
Proof.
  induction l as [|c r IH]; intros Hnd He; [destruct He|].
  cbn [ids map] in Hnd. apply List.NoDup_cons_iff in Hnd. destruct Hnd as [Hc Hnd].
  cbn [mesh] in He. apply in_app_iff in He. destruct He as [He|He].
  - apply in_map_iff in He. destruct He as (b & <- & Hb). cbn.
    intros Heq. apply Hc. rewrite Heq. now apply in_ids.
  - now apply IH.
Qed.

Lemma NoDup_ids_filter (f : AgentStatus.t -> bool) (l : list AgentStatus.t) :
  List.NoDup (ids l) -> List.NoDup (ids (List.filter f l)).
Proof.
  induction l as [|a l IH]; intros Hnd; [constructor|].
  cbn [ids map] in Hnd. apply List.NoDup_cons_iff in Hnd. destruct Hnd as [Ha Hnd].
  cbn [List.filter]. destruct (f a); [|now apply IH].
  cbn [ids map]. constructor; [|now apply IH].
  intros Hin. apply Ha. apply in_map_iff in Hin. destruct Hin as (b & Hb & Hin).
  apply filter_In in Hin. rewrite <- Hb. apply in_ids. tauto.
Qed.

Lemma NoDup_ids_inj (l : list AgentStatus.t) (a b : AgentStatus.t) :
  List.NoDup (ids l) -> In a l -> In b l ->
  AgentStatus.agent_id a = AgentStatus.agent_id b -> a = b.
Proof.
  induction l as [|c r IH]; intros Hnd Ha Hb Heq; [destruct Ha|].
  cbn [ids map] in Hnd. apply List.NoDup_cons_iff in Hnd. destruct Hnd as [Hc Hnd].
  destruct Ha as [->|Ha]; destruct Hb as [->|Hb].
  - reflexivity.
  - exfalso. apply Hc. rewrite Heq. now apply in_ids.
  - exfalso. apply Hc. rewrite <- Heq. now apply in_ids.
  - now apply IH.
Qed.

End Mesh.

(** C3, as the code has it.  When the agent ids of the snapshot are
    pairwise distinct: every edge joins the ids of two different agents of
    the list that are both online; for two different online agents exactly
    one edge joins their ids, counting both directions; and an agent whose
    id an edge names is online.  The effect rebuilds the same edges. *)
Theorem mesh_edges_join_distinct_online_agents_once
        (agents : list AgentStatus.t) (exchanges : list ExchangeLog.t)
        (Hids : List.NoDup (map AgentStatus.agent_id agents)) :
  (forall e, In e (initialEdges agents exchanges) ->
     exists a b,
       In a agents /\ In b agents
       /\ AgentStatus.status a = online /\ AgentStatus.status b = online
       /\ source e = AgentStatus.agent_id a /\ target e = AgentStatus.agent_id b
       /\ source e <> target e)
  /\ (forall a b,
        In a agents -> In b agents ->
        AgentStatus.status a = online -> AgentStatus.status b = online ->
        a <> b ->
        length (List.filter
                  (fun e => joins e (AgentStatus.agent_id a) (AgentStatus.agent_id b))
                  (initialEdges agents exchanges)) = 1)
  /\ (forall e p,
        In e (initialEdges agents exchanges) -> In p agents ->
        AgentStatus.agent_id p = source e \/ AgentStatus.agent_id p = target e ->
        AgentStatus.status p = online)
  /\ newEdges agents exchanges = initialEdges agents exchanges.
Proof.
  set (onlineAgents := List.filter (fun a => is_online (AgentStatus.status a)) agents).
  assert (List.NoDup (map AgentStatus.agent_id onlineAgents)) as Hnd
      by now apply NoDup_ids_filter.
  assert (forall a, In a onlineAgents <->
                    In a agents /\ AgentStatus.status a = online) as Hon.
  { intros a. unfold onlineAgents. rewrite filter_In.
    destruct (AgentStatus.status a); cbn; intuition congruence. }
  assert (forall e, In e (initialEdges agents exchanges) ->
            exists a b,
              In a agents /\ In b agents
              /\ AgentStatus.status a = online /\ AgentStatus.status b = online
              /\ source e = AgentStatus.agent_id a /\ target e = AgentStatus.agent_id b
              /\ source e <> target e) as Hends.
  { intros e He. rewrite initialEdges_mesh in He. fold onlineAgents in He.
    pose proof (mesh_no_loop exchanges onlineAgents e Hnd He) as Hloop.
    destruct (in_mesh _ _ _ He) as (a & b & Ha & Hb & ->).
    apply Hon in Ha, Hb. exists a, b. cbn in *. tauto. }
  split; [exact Hends|]. split; [|split].
  - intros a b Ha Hb Hsa Hsb Hab.
    rewrite initialEdges_mesh. fold onlineAgents.
    apply mesh_one_joining; [exact Hnd | | |].
    + apply in_map, Hon. tauto.
    + apply in_map, Hon. tauto.
    + intros Heq. apply Hab. now apply (NoDup_ids_inj agents).
  - intros e p He Hp Hid.
    destruct (Hends e He) as (a & b & Ha & Hb & Hsa & Hsb & Hsrc & Htgt & _).
    destruct Hid as [Hid|Hid].
    + rewrite Hsrc in Hid.
      now rewrite (NoDup_ids_inj agents p a Hids Hp Ha Hid).
    + rewrite Htgt in Hid.
      now rewrite (NoDup_ids_inj agents p b Hids Hp Hb Hid).
  - reflexivity.
Qed.

Lemma mesh_edges_join_distinct_online_agents_once_witness :
  let st' := fst (refreshAll net_linked DEFAULT_AGENT_CONFIGS initialState) in
  length (List.filter (fun e => joins e "dkmes-alpha" "agent-gamma-analytics")
                      (initialEdges (agents st') (graphExchanges st'))) = 1.
Proof.
  cbv zeta.
  set (st' := fst (refreshAll net_linked DEFAULT_AGENT_CONFIGS initialState)).
  assert (List.NoDup (map AgentStatus.agent_id (agents st'))) as Hnd.
  { vm_compute. repeat constructor; cbn; intuition discriminate. }
  destruct (mesh_edges_join_distinct_online_agents_once
              (agents st') (graphExchanges st') Hnd) as (_ & Hone & _).
  apply (Hone (AgentStatus.mk "dkmes-alpha" "DKMES Alpha" "knowledge-management"
                              online 8000 (Some "t"))
              (AgentStatus.mk "agent-gamma-analytics" "CVDT Chatbot Agent"
                              "data-analytics" online 8002 (Some "t")));
    try reflexivity; try discriminate.
  - vm_compute. tauto.
  - vm_compute. tauto.
Defined.

(** C3, as stated, fails: two of three online agents report the same id.
    The topology built after the round has an edge from that id to itself,
    and both an edge alpha-beta and an edge beta-alpha: two edges join the
    same two ids. *)
Lemma twin_ids_duplicate_edges :
  let st' := fst (refreshAll net_twins DEFAULT_AGENT_CONFIGS initialState) in
  map AgentStatus.status (agents st') = [online; online; online]
  /\ map (fun e => (source e, target e)) (topology st')
     = [ ("dkmes-alpha", "agent-beta-aiml");
         ("dkmes-alpha", "dkmes-alpha");
         ("agent-beta-aiml", "dkmes-alpha") ]
  /\ length (List.filter (fun e => joins e "dkmes-alpha" "agent-beta-aiml")
                         (topology st')) = 2.
Proof. cbv zeta. repeat split; vm_compute; reflexivity. Qed.

(** * Further properties of the code *)

Import OrchestratorView Invariants.

(** ** The registry: removeAgent, addAgent, and the states the component
    reaches *)

Lemma filter_all {A} (f : A -> bool) (l : list A) :
  (forall a, In a l -> f a = true) -> List.filter f l = l.
Proof.
  induction l as [|a l IH]; intros H; [reflexivity|].
  cbn. rewrite (H a (or_introl eq_refl)). f_equal. apply IH.
  intros b Hb. apply H. now right.
Qed.

(** X1.  [removeAgent port] completes normally and removes from the
    registry exactly the descriptors with that port: the others stay, in
    their order, and a port that is not registered leaves the registry as
    it was.  It touches no other hook: the status and the window of the
    removed peer stay displayed until a round replaces them. *)
Theorem removeAgent_removes_exactly_that_port (st : OrchestratorState) (p : Z) :
  exists st',
    removeAgent p st = (st', Normal tt)
    /\ ~ In p (map AgentConfig.port (agentConfigs st'))
    /\ agentConfigs st'
       = List.filter (fun c => negb (AgentConfig.port c =? p)%Z) (agentConfigs st)
    /\ (forall c, In c (agentConfigs st') <->
                  In c (agentConfigs st) /\ AgentConfig.port c <> p)
    /\ (~ In p (map AgentConfig.port (agentConfigs st)) ->
        agentConfigs st' = agentConfigs st)
    /\ agents st' = agents st
    /\ exchangesByPort st' = exchangesByPort st
    /\ selectedAgent st' = selectedAgent st.
Proof.
  eexists. split; [reflexivity|]. cbn.
  assert (forall c, In c (List.filter (fun c => negb (AgentConfig.port c =? p)%Z)
                                      (agentConfigs st)) <->
                    In c (agentConfigs st) /\ AgentConfig.port c <> p) as Hin.
  { intros c. rewrite filter_In, negb_true_iff, Z.eqb_neq. reflexivity. }
  split; [|split; [reflexivity|split; [exact Hin|split; [|auto]]]].
  - intros H. apply in_map_iff in H. destruct H as (c & Hp & Hc).
    apply Hin in Hc. tauto.
  - intros Hfresh. apply filter_all. intros c Hc.
    apply negb_true_iff, Z.eqb_neq. intros Hp. apply Hfresh.
    rewrite <- Hp. now apply in_map.
Qed.

Lemma removeAgent_removes_exactly_that_port_witness :
  exists st',
    removeAgent 8003 (fst (addAgent (form_with "8003"))) = (st', Normal tt)
    /\ agentConfigs st' = DEFAULT_AGENT_CONFIGS.
Proof.
  destruct (removeAgent_removes_exactly_that_port
              (fst (addAgent (form_with "8003"))) 8003%Z)
    as (st' & Hrun & _ & Hfilter & _).
  exists st'. split; [exact Hrun|]. rewrite Hfilter. reflexivity.
Defined.

(** X2.  Adding a port and removing it again gives back the registry:
    when the typed text parses to a port that is a safe integer, not zero
    and not registered, [removeAgent] of that port after [addAgent] restores
    [agentConfigs]. *)
Theorem addAgent_then_removeAgent_restores_registry
        (st : OrchestratorState) (p : Z)
        (Hparse : parseInt (newAgentPort st) = Some p)
        (Hsafe : isSafeInteger p = true)
        (Hnz : p <> 0%Z)
        (Hfresh : ~ In p (map AgentConfig.port (agentConfigs st))) :
  agentConfigs (fst (removeAgent p (fst (addAgent st)))) = agentConfigs st
  /\ In p (map AgentConfig.port (agentConfigs (fst (addAgent st)))).
Proof.
  assert (agentConfigs (fst (addAgent st)) = agentConfigs st ++ [derivedConfig p])
    as Hadd.
  { unfold addAgent. rewrite Hparse. cbn [truthy_number].
    destruct (existsb (fun c => (AgentConfig.port c =? p)%Z) (agentConfigs st)) eqn:Hex.
    { apply existsb_port_In in Hex. contradiction. }
    apply Z.eqb_neq in Hnz. rewrite Hnz. reflexivity. }
  split.
  - cbn [removeAgent setAgentConfigs fst agentConfigs]. rewrite Hadd.
    rewrite List.filter_app. cbn. rewrite Z.eqb_refl. cbn. rewrite app_nil_r.
    apply filter_all. intros c Hc. apply negb_true_iff, Z.eqb_neq.
    intros Hp. apply Hfresh. rewrite <- Hp. now apply in_map.
  - rewrite Hadd, List.map_app, in_app_iff. right. left. reflexivity.
Qed.

Lemma addAgent_then_removeAgent_restores_registry_witness :
  agentConfigs (fst (removeAgent 9000 (fst (addAgent (form_with "9000")))))
  = DEFAULT_AGENT_CONFIGS
  /\ In 9000%Z (map AgentConfig.port (agentConfigs (fst (addAgent (form_with "9000"))))).
Proof.
  apply (addAgent_then_removeAgent_restores_registry (form_with "9000") 9000%Z).
  - reflexivity.
  - reflexivity.
  - discriminate.
  - cbn. intros [H|[H|[H|[]]]]; discriminate H.
Defined.

Lemma addAgent_cases (st : OrchestratorState) :
  addAgent st = (st, Normal tt)
  \/ exists p,
       parseInt (newAgentPort st) = Some p /\ p <> 0%Z
       /\ ~ In p (map AgentConfig.port (agentConfigs st))
       /\ addAgent st =
          (mkState (agentConfigs st ++ [derivedConfig p]) (agents st)
                   (exchangesByPort st) (activeTasks st) (selectedAgent st)
                   (loading st) (autoRefresh st) false "",
           Normal tt).
Proof.
  unfold addAgent. destruct (parseInt (newAgentPort st)) as [p|] eqn:Hparse;
    [|left; reflexivity].
  cbn [truthy_number].
  destruct (Z.eqb_spec p 0) as [->|Hnz]; [left; reflexivity|].
  destruct (existsb (fun c => (AgentConfig.port c =? p)%Z) (agentConfigs st)) eqn:Hex;
    [left; reflexivity|].
  right. exists p. repeat split; try assumption.
  intros Hin. apply existsb_port_In in Hin. congruence.
Qed.

Lemma refreshAll_settle_keeps (net : Wire.Net) (cfg : list AgentConfig.t)
      (st : OrchestratorState) :
  agentConfigs (fst (refreshAll_settle net cfg st)) = agentConfigs st
  /\ autoRefresh (fst (refreshAll_settle net cfg st)) = autoRefresh st
  /\ selectedAgent (fst (refreshAll_settle net cfg st)) = selectedAgent st.
Proof.
  destruct (refreshAll_settle_publishes net cfg st) as (? & ? & ? & _ & _ & _ & ->).
  repeat split.
Qed.

Lemma runEffect_parts (c : Component) :
  hooks (runEffect c) = fst (setLoading true (hooks c))
  /\ inflight (runEffect c) = inflight c ++ [agentConfigs (hooks c)]
  /\ interval (runEffect c)
     = if autoRefresh (hooks c) then Some (agentConfigs (hooks c)) else None.
Proof. unfold runEffect. destruct (autoRefresh (hooks c)); repeat split. Qed.

Lemma registryInv_ext (st st' : OrchestratorState) :
  agentConfigs st' = agentConfigs st -> registryInv st -> registryInv st'.
Proof. unfold registryInv. intros ->. exact (fun H => H). Qed.

Lemma addAgent_registryInv (st : OrchestratorState) :
  safeText (newAgentPort st) -> registryInv st -> registryInv (fst (addAgent st)).
Proof.
  intros Htext Hinv.
  pose proof (proj2 (registry_ports_distinct st 0%Z)) as Hnd.
  destruct (addAgent_cases st) as [Heq | (p & Hparse & Hnz & _ & Heq)].
  { rewrite Heq. exact Hinv. }
  unfold safeText in Htext. rewrite Hparse in Htext.
  destruct Hinv as (added & Hreg & Hports & Hadded).
  exists (added ++ [derivedConfig p]). split; [|split].
  - rewrite Heq. cbn. rewrite Hreg, <- app_assoc. reflexivity.
  - apply Hnd, Hports.
  - apply Forall_app. split; [exact Hadded|]. constructor; [|constructor].
    split; [reflexivity|]. split; [exact Hnz | exact Htext].
Qed.

Lemma addAgent_newAgentPort (st : OrchestratorState) :
  safeText (newAgentPort st) -> safeText (newAgentPort (fst (addAgent st))).
Proof.
  intros Htext.
  destruct (addAgent_cases st) as [Heq | (p & _ & _ & _ & Heq)]; rewrite Heq;
    [exact Htext | exact I].
Qed.

Lemma refreshAll_settle_keeps_form (net : Wire.Net) (cfg : list AgentConfig.t)
      (st : OrchestratorState) :
  newAgentPort (fst (refreshAll_settle net cfg st)) = newAgentPort st.
Proof.
  destruct (refreshAll_settle_publishes net cfg st) as (? & ? & ? & _ & _ & _ & ->).
  reflexivity.
Qed.

Lemma removeAgent_registryInv (st : OrchestratorState) (p : Z) :
  existsb (fun c => (AgentConfig.port c =? p)%Z) DEFAULT_AGENT_CONFIGS = false ->
  registryInv st -> registryInv (fst (removeAgent p st)).
Proof.
  intros Hnotdefault Hinv.
  pose proof (proj2 (registry_ports_distinct st p)) as Hnd.
  destruct Hinv as (added & Hreg & Hports & Hadded).
  exists (List.filter (fun c => negb (AgentConfig.port c =? p)%Z) added).
  split; [|split].
  - unfold removeAgent, setAgentConfigs. cbn [fst agentConfigs].
    rewrite Hreg, List.filter_app. f_equal.
    apply filter_all. intros c Hc. apply negb_true_iff.
    destruct (AgentConfig.port c =? p)%Z eqn:Heq; [|reflexivity].
    assert (existsb (fun c => (AgentConfig.port c =? p)%Z) DEFAULT_AGENT_CONFIGS = true)
      as Habs by (apply existsb_exists; eauto).
    congruence.
  - apply Hnd, Hports.
  - rewrite List.Forall_forall in *. intros c Hc. apply filter_In in Hc.
    apply Hadded. tauto.
Qed.

Lemma step_registryInv (c : Component) (ev : Event) :
  safeEvent ev ->
  registryInv (hooks c) /\ safeText (newAgentPort (hooks c)) ->
  registryInv (hooks (step c ev)) /\ safeText (newAgentPort (hooks (step c ev))).
Proof.
  intros Hev [Hinv Htext].
  destruct ev as [ | | |k net|checked| |value| |p]; cbn [step].
  - rewrite (proj1 (runEffect_parts c)). split; [exact Hinv | exact Htext].
  - destruct (interval c); split; assumption.
  - destruct (loading (hooks c)); split; assumption.
  - destruct (inflight c !! k); [|split; assumption]. cbn [hooks]. split.
    + eapply registryInv_ext; [|exact Hinv]. apply refreshAll_settle_keeps.
    + now rewrite refreshAll_settle_keeps_form.
  - destruct (Bool.eqb checked (autoRefresh (hooks c)));
      [|rewrite (proj1 (runEffect_parts _))]; split; assumption.
  - split; assumption.
  - destruct (showAddAgent (hooks c)); split; assumption.
  - destruct (showAddAgent (hooks c)); [|split; assumption].
    destruct (Nat.eqb _ _); [|rewrite (proj1 (runEffect_parts _))];
      (split; [apply (addAgent_registryInv _ Htext Hinv)
              | apply (addAgent_newAgentPort _ Htext)]).
  - unfold removable. destruct (existsb _ (agents (hooks c))); [|split; assumption].
    destruct (existsb _ DEFAULT_AGENT_CONFIGS) eqn:Hdef; [split; assumption|].
    cbn [andb negb]. rewrite (proj1 (runEffect_parts _)). split.
    + apply (removeAgent_registryInv _ _ Hdef Hinv).
    + exact Htext.
Qed.

(** X3.  In every state the component reaches when the texts typed into
    the port input denote safe integers (or no number), whatever else the
    user clicks and however the rounds settle, the registry is the default
    registry followed by added descriptors: the three default agents are
    never removed (their cards have no Remove button), every added
    descriptor is the one derived from its port, every added port is a safe
    integer other than zero, and no two descriptors share a port. *)
Theorem reachable_registry_keeps_defaults_and_distinct_ports
        (evs : list Event) (Hsafe : Forall safeEvent evs) :
  registryInv (hooks (run unmounted evs)).
Proof.
  assert (forall c,
             registryInv (hooks c) /\ safeText (newAgentPort (hooks c)) ->
             registryInv (hooks (run c evs))
             /\ safeText (newAgentPort (hooks (run c evs)))) as Hrun.
  { induction Hsafe as [|ev evs Hev _ IH]; intros c Hinv; [exact Hinv|].
    cbn. apply IH. now apply step_registryInv. }
  apply Hrun. split; [|exact I].
  exists []. split; [reflexivity|]. split; [|constructor].
  apply (proj1 (registry_ports_distinct initialState 0%Z)).
Qed.

Lemma reachable_registry_keeps_defaults_and_distinct_ports_witness :
  registryInv
    (hooks (run unmounted [Mount; ToggleAddForm; TypePort "8003"; ClickAdd;
                           TypePort "8001"; ClickAdd; ClickRemove 8000])).
Proof.
  apply reachable_registry_keeps_defaults_and_distinct_ports.
  repeat constructor.
Defined.

Lemma step_timerInv (c : Component) (ev : Event) :
  timerInv c -> timerInv (step c ev).
Proof.
  assert (forall c', timerInv (runEffect c')) as Heffect.
  { intros c' cfg. destruct (runEffect_parts c') as (-> & _ & ->).
    destruct (autoRefresh (hooks c')) eqn:Hauto; [|discriminate].
    intros [= <-]. split; [exact Hauto | reflexivity]. }
  intros Hinv.
  destruct ev as [ | | |k net|checked| |value| |p]; cbn [step].
  - apply Heffect.
  - destruct (interval c) eqn:Hint; [|exact Hinv].
    intros cfg Hcfg. apply (Hinv cfg). exact Hcfg.
  - destruct (loading (hooks c)); [exact Hinv|].
    intros cfg Hcfg. apply (Hinv cfg). exact Hcfg.
  - destruct (inflight c !! k); [|exact Hinv].
    intros cfg Hcfg. cbn [hooks interval] in *.
    destruct (refreshAll_settle_keeps net l (hooks c)) as (-> & -> & _).
    now apply Hinv.
  - destruct (Bool.eqb checked (autoRefresh (hooks c))) eqn:Heq; [|apply Heffect].
    apply Bool.eqb_prop in Heq. subst checked.
    intros cfg Hcfg. apply (Hinv cfg). exact Hcfg.
  - exact Hinv.
  - destruct (showAddAgent (hooks c)); exact Hinv.
  - destruct (showAddAgent (hooks c)); [|exact Hinv].
    destruct (Nat.eqb _ _) eqn:Hlen; [|apply Heffect].
    cbn [hooks] in Hlen. apply Nat.eqb_eq in Hlen.
    destruct (addAgent_cases (hooks c)) as [Heq | (q & _ & _ & _ & Heq)];
      rewrite Heq in *; cbn [fst] in *; [exact Hinv|].
    cbn in Hlen. rewrite length_app in Hlen. cbn in Hlen. lia.
  - destruct (removable (hooks c) p); [apply Heffect | exact Hinv].
Qed.

Lemma run_timerInv (evs : list Event) (c : Component) :
  timerInv c -> timerInv (run c evs).
Proof.
  revert c. induction evs as [|ev evs IH]; intros c Hinv; [exact Hinv|].
  cbn. apply IH. now apply step_timerInv.
Qed.

(** X4.  In every state the component reaches, an installed interval
    belongs to a component whose auto-refresh is on, and the [refreshAll] it
    calls captured the current registry, not an older one.  Unchecking
    auto-refresh therefore leaves no interval behind: a tick after it starts
    nothing.  The rounds in flight are not cancelled by it; when it changes
    the setting, the effect even starts one more round at once. *)
Theorem reachable_interval_is_current_and_stops_with_auto_refresh
        (evs : list Event) :
  let c := run unmounted evs in
  (forall cfg, interval c = Some cfg ->
     autoRefresh (hooks c) = true /\ cfg = agentConfigs (hooks c))
  /\ step (step c (ToggleAutoRefresh false)) IntervalFires
     = step c (ToggleAutoRefresh false)
  /\ inflight (step c (ToggleAutoRefresh false))
     = inflight c ++ (if autoRefresh (hooks c) then [agentConfigs (hooks c)] else []).
Proof.
  cbv zeta.
  assert (timerInv (run unmounted evs)) as Hinv.
  { apply run_timerInv. intros cfg Hcfg. discriminate Hcfg. }
  set (c := run unmounted evs) in *.
  split; [exact Hinv|].
  cbn [step]. destruct (autoRefresh (hooks c)) eqn:Hauto; cbn [Bool.eqb].
  - unfold runEffect. cbn. split; reflexivity.
  - destruct (interval c) as [cfg|] eqn:Hcfg.
    + destruct (Hinv cfg Hcfg) as [Habs _]. congruence.
    + cbn. rewrite app_nil_r. split; reflexivity.
Qed.

(** ** Rounds: what a settling round publishes *)

Lemma published_ports (net : Wire.Net) (cfgs : list AgentConfig.t)
      (ars : list AgentStatus.t) :
  Forall2 (fun c a => fetchAgentStatus net c = Normal a) cfgs ars ->
  map AgentStatus.port ars = map AgentConfig.port cfgs.
Proof.
  induction 1 as [|c a cs as_ Hca _ IH]; [reflexivity|].
  cbn. rewrite IH. f_equal.
  destruct (fetchAgentStatus_settles net c) as (a' & Ha' & Hport). congruence.
Qed.

(** X5.  A round that settles publishes one status per descriptor of the
    registry its closure captured when it was started, in that order, and
    windows for ports of that registry only, whatever the registry has
    become in the meantime; the registry itself is not touched, and the
    other rounds stay in flight. *)
Theorem settling_round_publishes_its_captured_registry
        (c : Component) (k : nat) (net : Wire.Net) (cfg : list AgentConfig.t)
        (Hk : inflight c !! k = Some cfg) :
  let c' := step c (Settle k net) in
  map AgentStatus.port (agents (hooks c')) = map AgentConfig.port cfg
  /\ (forall p w, exchangesByPort (hooks c') !! p = Some w ->
                  In p (map AgentConfig.port cfg))
  /\ agentConfigs (hooks c') = agentConfigs (hooks c)
  /\ inflight c' = delete k (inflight c)
  /\ interval c' = interval c.
Proof.
  cbv zeta. cbn [step]. rewrite Hk. cbn [hooks inflight interval].
  destruct (refreshAll_settle_publishes net cfg (hooks c))
    as (ars & ers & tasks & HFa & HFe & _ & ->).
  cbn. split; [now apply (published_ports net)|]. split; [|auto].
  intros p w Hlook. apply (storeByPort_lookup net cfg ers _ _ HFe) in Hlook.
  destruct Hlook as [(c0 & Hc0 & <-) _]. now apply in_map.
Qed.

Lemma settling_round_publishes_its_captured_registry_witness :
  let c := run unmounted [Mount; ToggleAddForm; TypePort "8003"; ClickAdd] in
  let c' := step c (Settle 0 net_quiet) in
  map AgentConfig.port (agentConfigs (hooks c')) = [8000; 8001; 8002; 8003]%Z
  /\ map AgentStatus.port (agents (hooks c')) = [8000; 8001; 8002]%Z.
Proof.
  cbv zeta. split; [reflexivity|].
  apply (settling_round_publishes_its_captured_registry
           (run unmounted [Mount; ToggleAddForm; TypePort "8003"; ClickAdd])
           0 net_quiet DEFAULT_AGENT_CONFIGS).
  reflexivity.
Defined.

(** X6.  When two or more rounds are in flight and one of them settles,
    the loading flag is cleared although a round is still in flight: the
    Refresh button is enabled again, and a click on it starts a further
    round beside the ones still running. *)
Theorem settle_clears_loading_while_rounds_remain
        (c : Component) (k : nat) (net : Wire.Net) (cfg : list AgentConfig.t)
        (Hk : inflight c !! k = Some cfg)
        (Hmany : 2 <= length (inflight c)) :
  let c' := step c (Settle k net) in
  loading (hooks c') = false
  /\ inflight c' <> []
  /\ inflight (step c' ClickRefresh) = inflight c' ++ [agentConfigs (hooks c)].
Proof.
  cbv zeta. cbn [step]. rewrite Hk. cbn [hooks inflight].
  rewrite refreshAll_settle_clears_loading.
  split; [reflexivity|]. split.
  - intros Hnil. apply (f_equal length) in Hnil.
    rewrite length_delete in Hnil by (rewrite Hk; eauto). cbn in Hnil. lia.
  - cbn. rewrite (proj1 (refreshAll_settle_keeps net cfg (hooks c))). reflexivity.
Qed.

Lemma settle_clears_loading_while_rounds_remain_witness :
  let c' := step (run unmounted [Mount; IntervalFires]) (Settle 0 net_quiet) in
  loading (hooks c') = false
  /\ inflight c' <> []
  /\ inflight (step c' ClickRefresh) = inflight c' ++ [DEFAULT_AGENT_CONFIGS].
Proof.
  apply (settle_clears_loading_while_rounds_remain
           (run unmounted [Mount; IntervalFires]) 0 net_quiet DEFAULT_AGENT_CONFIGS).
  - reflexivity.
  - cbn. lia.
Defined.

Lemma refreshAll_uniform (net : Wire.Net) (cfgs : list AgentConfig.t) :
  exists agentResults exchangeResults tasks,
    Forall2 (fun c a => fetchAgentStatus net c = Normal a) cfgs agentResults
    /\ Forall2 (fun c r => fetchExchanges net (AgentConfig.port c) = Normal r)
               cfgs exchangeResults
    /\ fetchTasks net = Normal tasks
    /\ forall st,
         refreshAll net cfgs st =
         (mkState (agentConfigs st) agentResults (storeByPort exchangeResults) tasks
                  (selectedAgent st) false (autoRefresh st) (showAddAgent st)
                  (newAgentPort st), Normal tt).
Proof.
  destruct (refreshAll_publishes net cfgs initialState)
    as (ars & ers & tasks & HFa & HFe & Htasks & _).
  exists ars, ers, tasks. split; [exact HFa|]. split; [exact HFe|].
  split; [exact Htasks|]. intros st.
  destruct (refreshAll_publishes net cfgs st)
    as (ars' & ers' & tasks' & HFa' & HFe' & Htasks' & ->).
  assert (ars' = ars) as ->.
  { clear -HFa HFa'. revert ars' HFa'.
    induction HFa as [|c a cs as_ Hca _ IH]; intros ars' HFa';
      inversion HFa'; subst; [reflexivity|].
    f_equal; [congruence | now apply IH]. }
  assert (ers' = ers) as ->.
  { clear -HFe HFe'. revert ers' HFe'.
    induction HFe as [|c a cs as_ Hca _ IH]; intros ers' HFe';
      inversion HFe'; subst; [reflexivity|].
    f_equal; [congruence | now apply IH]. }
  assert (tasks' = tasks) as -> by congruence.
  reflexivity.
Qed.

(** X7.  A round replaces the snapshot wholesale.  For a network and a
    registry there is one list of statuses (those the probes of the
    descriptors return), one list of windows (those fetched for their
    ports) and one task list (the one the registry call returns) such that,
    from every state, the round leaves exactly these as [agents],
    [exchangesByPort] and [activeTasks], with the loading flag cleared:
    nothing of the earlier snapshot survives.  The registry, the
    auto-refresh setting, the add form and the selected agent are left as
    they were (the detail panel keeps the status that was selected).  So a
    round after any other round leaves the state that round alone leaves. *)
Theorem round_replaces_snapshot_wholesale
        (net : Wire.Net) (cfgs : list AgentConfig.t) :
  exists agentResults exchangeResults tasks,
    Forall2 (fun c a => fetchAgentStatus net c = Normal a) cfgs agentResults
    /\ Forall2 (fun c r => fetchExchanges net (AgentConfig.port c) = Normal r)
               cfgs exchangeResults
    /\ fetchTasks net = Normal tasks
    /\ (forall st,
          refreshAll net cfgs st =
          (mkState (agentConfigs st) agentResults (storeByPort exchangeResults) tasks
                   (selectedAgent st) false (autoRefresh st) (showAddAgent st)
                   (newAgentPort st), Normal tt))
    /\ (forall net0 cfgs0 st,
          fst (refreshAll net cfgs (fst (refreshAll net0 cfgs0 st)))
          = fst (refreshAll net cfgs st)).
Proof.
  destruct (refreshAll_uniform net cfgs)
    as (ars & ers & tasks & HFa & HFe & Htasks & Hrun).
  exists ars, ers, tasks. split; [exact HFa|]. split; [exact HFe|].
  split; [exact Htasks|]. split; [exact Hrun|].
  intros net0 cfgs0 st.
  destruct (refreshAll_uniform net0 cfgs0) as (ars0 & ers0 & tasks0 & _ & _ & _ & Hrun0).
  rewrite !Hrun, Hrun0. reflexivity.
Qed.

(** X8.  After a round, the exchanges a card shows
    ([getAgentExchanges]) are, for every agent of the published list, the
    window the round fetched from that agent's own port; for a status whose
    port is not in the registry of the round there is no window and the
    card shows the empty list. *)
Theorem getAgentExchanges_is_the_window_of_the_agents_port
        (net : Wire.Net) (cfgs : list AgentConfig.t) (st : OrchestratorState) :
  let st' := fst (refreshAll net cfgs st) in
  (forall a, In a (agents st') ->
     fetchExchanges net (AgentStatus.port a)
     = Normal (mkExchangeResult (AgentStatus.port a) (getAgentExchanges st' a)))
  /\ (forall a, ~ In (AgentStatus.port a) (map AgentConfig.port cfgs) ->
        getAgentExchanges st' a = []).
Proof.
  cbv zeta.
  destruct (refreshAll_publishes net cfgs st)
    as (ars & ers & tasks & HFa & HFe & _ & ->).
  cbn [fst]. unfold getAgentExchanges. cbn [agents exchangesByPort]. split.
  - intros a Ha.
    assert (In (AgentStatus.port a) (map AgentConfig.port cfgs)) as Hport.
    { rewrite <- (published_ports net cfgs ars HFa). now apply in_map. }
    apply in_map_iff in Hport. destruct Hport as (c & Hc & Hin).
    destruct (fetchExchanges_settles net (AgentStatus.port a)) as (w & Hw).
    rewrite (proj2 (storeByPort_lookup net cfgs ers _ w HFe)); [exact Hw|].
    split; [eauto | exact Hw].
  - intros a Hnot.
    destruct (storeByPort ers !! AgentStatus.port a) as [w|] eqn:Hlook;
      [|reflexivity].
    apply (storeByPort_lookup net cfgs ers _ _ HFe) in Hlook.
    destruct Hlook as [(c & Hc & Hp) _]. exfalso. apply Hnot.
    rewrite <- Hp. now apply in_map.
Qed.

Lemma getAgentExchanges_is_the_window_of_the_agents_port_witness :
  let st' := fst (refreshAll net_linked DEFAULT_AGENT_CONFIGS initialState) in
  fetchExchanges net_linked 8000
  = Normal (mkExchangeResult 8000
              (getAgentExchanges st'
                 (AgentStatus.mk "dkmes-alpha" "DKMES Alpha" "knowledge-management"
                                 online 8000 (Some "t"))))
  /\ getAgentExchanges st'
       (AgentStatus.mk "agent-9000" "Agent :9000" "unknown" offline 9000 (Some ""))
     = [].
Proof.
  cbv zeta.
  destruct (getAgentExchanges_is_the_window_of_the_agents_port
              net_linked DEFAULT_AGENT_CONFIGS initialState) as [Hown Hnone].
  split.
  - apply (Hown (AgentStatus.mk "dkmes-alpha" "DKMES Alpha" "knowledge-management"
                                online 8000 (Some "t"))).
    vm_compute. tauto.
  - apply Hnone. cbn. intros [H|[H|[H|[]]]]; discriminate H.
Defined.

Lemma fetchAgentStatus_online_iff (net : Wire.Net) (c : AgentConfig.t)
      (a : AgentStatus.t) :
  fetchAgentStatus net c = Normal a ->
  is_online (AgentStatus.status a) = probeSucceeds net c.
Proof.
  unfold fetchAgentStatus, probeSucceeds, fetchFailed.
  destruct (Wire.health net (AgentConfig.port c)) as [response|e]; cbn;
    [|intros [= <-]; reflexivity].
  destruct (Wire.ok response); cbn; [|intros [= <-]; reflexivity].
  destruct (Wire.json response) as [[|body]|e]; cbn; intros [= <-]; reflexivity.
Qed.

Lemma filter_length_Forall2 {A B} (f : A -> bool) (g : B -> bool)
      (l : list A) (l' : list B) :
  Forall2 (fun a b => g b = f a) l l' ->
  length (List.filter g l') = length (List.filter f l).
Proof.
  induction 1 as [|a b l l' Hab _ IH]; [reflexivity|].
  cbn. rewrite Hab. destruct (f a); cbn; now rewrite IH.
Qed.

(** X9.  A peer is published online exactly when its health probe
    succeeded (the fetch resolved, the response was ok and its body could be
    read), so after a round the header shows as many agents as the registry
    has descriptors and as many of them online as probes succeeded. *)
Theorem header_counts_after_round
        (net : Wire.Net) (cfgs : list AgentConfig.t) (st : OrchestratorState) :
  let st' := fst (refreshAll net cfgs st) in
  Forall2 (fun c a => is_online (AgentStatus.status a) = probeSucceeds net c)
          cfgs (agents st')
  /\ agentCount st' = length cfgs
  /\ onlineCount st' = length (List.filter (probeSucceeds net) cfgs)
  /\ onlineCount st' <= agentCount st'.
Proof.
  cbv zeta.
  destruct (refreshAll_publishes net cfgs st)
    as (ars & ers & tasks & HFa & _ & _ & ->).
  unfold agentCount, onlineCount. cbn [fst agents].
  assert (Forall2 (fun c a => is_online (AgentStatus.status a) = probeSucceeds net c)
                  cfgs ars) as Hon.
  { clear -HFa. induction HFa as [|c a cs as_ Hca _ IH]; constructor; [|exact IH].
    now apply fetchAgentStatus_online_iff. }
  split; [exact Hon|]. split; [|split].
  - symmetry. exact (Forall2_length _ _ _ HFa).
  - exact (filter_length_Forall2 _ _ _ _ Hon).
  - apply List.filter_length_le.
Qed.

(** ** The label of a task row *)








(** ** The mesh: its size, and when an edge is active *)

Lemma length_mesh (exchanges : list ExchangeLog.t) (l : list AgentStatus.t) :
  2 * length (mesh exchanges l) + length l = length l * length l.
Proof.
  induction l as [|a r IH]; [reflexivity|].
  cbn [mesh length]. rewrite length_app, length_map. nia.
Qed.

(** X11.  The mesh has one edge for each pair of online agents: with [n]
    agents online it has [n * (n - 1) / 2] edges, and none at all when
    fewer than two agents are online; offline agents add nothing. *)
Theorem initialEdges_count (agents : list AgentStatus.t)
        (exchanges : list ExchangeLog.t) :
  let n := length (List.filter (fun a => is_online (AgentStatus.status a)) agents) in
  length (initialEdges agents exchanges) = n * (n - 1) / 2
  /\ (n <= 1 -> initialEdges agents exchanges = []).
Proof.
  cbv zeta. rewrite initialEdges_mesh.
  set (l := List.filter (fun a => is_online (AgentStatus.status a)) agents).
  pose proof (length_mesh exchanges l) as Hlen.
  split.
  - assert (length l * (length l - 1) = length (mesh exchanges l) * 2) as -> by nia.
    now rewrite Nat.div_mul.
  - intros Hn. destruct (mesh exchanges l) eqn:Hmesh; [reflexivity|].
    cbn in Hlen. nia.
Qed.

Lemma initialEdges_count_witness :
  initialEdges
    [AgentStatus.mk "dkmes-alpha" "DKMES Alpha" "knowledge-management" online 8000
                    (Some "t");
     AgentStatus.mk "agent-beta-aiml" "AI/ML Research Agent" "artificial-intelligence"
                    offline 8001 (Some "")]
    [exchange_beta_alpha]
  = [].
Proof.
  apply (proj2 (initialEdges_count _ _)). cbn. lia.
Defined.

(** X12.  Whether an edge is active does not depend on which of its two
    agents comes first, can only be switched on by further records (a
    longer history never deactivates an edge), and is never caused by a
    record that names no receiver. *)
Theorem hasExchange_symmetric_monotone (exchanges : list ExchangeLog.t)
        (a b : string) :
  hasExchange exchanges a b = hasExchange exchanges b a
  /\ (forall more, hasExchange exchanges a b = true ->
                   hasExchange (more ++ exchanges) a b = true
                   /\ hasExchange (exchanges ++ more) a b = true)
  /\ (Forall (fun ex => ExchangeLog.receiver_agent_id ex = None) exchanges ->
      hasExchange exchanges a b = false).
Proof.
  split; [|split].
  - unfold hasExchange. induction exchanges as [|ex l IH]; [reflexivity|].
    cbn [existsb]. rewrite IH. f_equal. apply orb_comm.
  - intros more Hact. apply hasExchange_spec in Hact.
    destruct Hact as (ex & Hin & Hlinks).
    split; apply hasExchange_spec; exists ex; (split; [|exact Hlinks]);
      apply in_app_iff; tauto.
  - intros Hnone. destruct (hasExchange exchanges a b) eqn:Hact; [|reflexivity].
    apply hasExchange_spec in Hact. destruct Hact as (ex & Hin & Hlinks).
    rewrite List.Forall_forall in Hnone. specialize (Hnone ex Hin).
    destruct Hlinks as [[_ H]|[_ H]]; congruence.
Qed.

Lemma hasExchange_symmetric_monotone_witness :
  hasExchange ([exchange_alpha_beta] ++ [exchange_beta_alpha])
              "dkmes-alpha" "agent-beta-aiml" = true
  /\ hasExchange [ExchangeLog.mk "req-9" "dkmes-alpha" None "km" "ping" 1
                                 "2024-01-01T00:00:09"]
                 "dkmes-alpha" "agent-beta-aiml" = false.
Proof.
  split.
  - apply (proj1 (proj2 (hasExchange_symmetric_monotone
                           [exchange_beta_alpha] "dkmes-alpha" "agent-beta-aiml"))
                 [exchange_alpha_beta]).
    reflexivity.
  - apply (proj2 (proj2 (hasExchange_symmetric_monotone _ _ _))).
    repeat constructor.
Defined.

(** ** The nodes of the graph *)

Section Nodes.
Import GraphNodes.

Lemma bump_lookup (k : string) (counts : gmap string nat) (id : string) :
  inherited id = false ->
  default 0 (bump k counts !! id)
  = default 0 (counts !! id) + (if String.eqb k id then 1 else 0).
Proof.
  intros Hid. unfold bump. destruct (inherited k) eqn:Hk.
  - destruct (String.eqb_spec k id) as [->|_]; [congruence | lia].
  - destruct (String.eqb_spec k id) as [->|Hne].
    + rewrite lookup_insert_eq. cbn. lia.
    + rewrite lookup_insert_ne by exact Hne. lia.
Qed.

Lemma exchangeCounts_from (exchanges : list ExchangeLog.t)
      (counts : gmap string nat) (id : string) :
  inherited id = false ->
  default 0
    (fold_left
       (fun counts ex =>
          let counts1 := bump (ExchangeLog.sender_agent_id ex) counts in
          match ExchangeLog.receiver_agent_id ex with
          | Some r => if String.eqb r "" then counts1 else bump r counts1
          | None => counts1
          end)
       exchanges counts !! id)
  = default 0 (counts !! id) + sent id exchanges + received id exchanges.
Proof.
  intros Hid. revert counts.
  induction exchanges as [|ex l IH]; intros counts.
  - cbn. lia.
  - cbn [fold_left]. rewrite IH. unfold sent, received. cbn [List.filter].
    destruct (ExchangeLog.receiver_agent_id ex) as [r|].
    + destruct (String.eqb r "") eqn:Hr; cbn [negb andb];
        rewrite ?bump_lookup by exact Hid;
        destruct (String.eqb (ExchangeLog.sender_agent_id ex) id);
        destruct (String.eqb r id); cbn [length]; lia.
    + rewrite bump_lookup by exact Hid.
      destruct (String.eqb (ExchangeLog.sender_agent_id ex) id); cbn [length]; lia.
Qed.

(** X13.  The exchange count shown on a node is the number of records
    that name the agent's id as sender plus the number that name it as
    receiver (so a record an agent sent to itself counts twice, and a record
    without receiver counts for its sender only); an agent no record names
    shows zero.  The one exception is an id that is the name of a member
    every JavaScript object inherits ([constructor], [toString], ...): the
    entry read for it is never a number. *)
Theorem exchangeCount_is_sent_plus_received
        (exchanges : list ExchangeLog.t) (id : string) :
  (inherited id = false ->
   exchangeCountOf (exchangeCounts exchanges) id
   = Some (sent id exchanges + received id exchanges))
  /\ (inherited id = true ->
      exchangeCountOf (exchangeCounts exchanges) id = None).
Proof.
  unfold exchangeCountOf. split; intros Hid; rewrite Hid; [|reflexivity].
  unfold exchangeCounts. rewrite (exchangeCounts_from exchanges ∅ id Hid).
  rewrite lookup_empty. reflexivity.
Qed.

Lemma exchangeCount_is_sent_plus_received_witness :
  exchangeCountOf
    (exchangeCounts
       [exchange_beta_alpha;
        ExchangeLog.mk "req-8" "dkmes-alpha" (Some "dkmes-alpha") "km" "note to self" 1
                       "2024-01-01T00:00:08";
        ExchangeLog.mk "req-9" "dkmes-alpha" None "km" "ping" 1 "2024-01-01T00:00:09"])
    "dkmes-alpha"
  = Some 4
  /\ exchangeCountOf (exchangeCounts [exchange_beta_alpha]) "constructor" = None.
Proof.
  split.
  - rewrite (proj1 (exchangeCount_is_sent_plus_received _ "dkmes-alpha") eq_refl).
    reflexivity.
  - apply (proj2 (exchangeCount_is_sent_plus_received _ "constructor")). reflexivity.
Defined.

Lemma calculateNodePositions_lookup (n i : nat) :
  i < n ->
  calculateNodePositions n !! i
  = Some (OnCircle (Z.max 150 (Z.of_nat n * 40)) i n).
Proof.
  intros Hi. unfold calculateNodePositions.
  change (map ?f ?l) with (f <$> l).
  rewrite list_lookup_fmap, lookup_seq_lt by exact Hi. reflexivity.
Qed.

(** X14.  The graph has one node per agent, in the order of the agents,
    with the agent's id, the agent itself and its exchange count; the node
    of the agent at index [i] among [n] sits at step [i] of [n] on the
    circle of radius [max(150, 40 n)].  The default position (100, 100) of
    the source is never used. *)
Theorem initialNodes_one_node_per_agent_on_the_circle
        (agents : list AgentStatus.t) (exchanges : list ExchangeLog.t) :
  length (initialNodes agents exchanges) = length agents
  /\ map id (initialNodes agents exchanges) = map AgentStatus.agent_id agents
  /\ (forall i a, agents !! i = Some a ->
        exists n,
          initialNodes agents exchanges !! i = Some n
          /\ agent (data n) = a
          /\ exchangeCount (data n)
             = exchangeCountOf (exchangeCounts exchanges) (AgentStatus.agent_id a)
          /\ position n
             = OnCircle (Z.max 150 (Z.of_nat (length agents) * 40)) i (length agents)
          /\ position n <> defaultPosition).
Proof.
  unfold initialNodes. split; [apply length_imap|]. split.
  - change (map ?f ?l) with (f <$> l). rewrite fmap_imap.
    rewrite <- imap_const. apply imap_ext. reflexivity.
  - intros i a Hi. rewrite list_lookup_imap, Hi. cbn.
    rewrite (calculateNodePositions_lookup _ _ (lookup_lt_Some _ _ _ Hi)). cbn.
    eexists. split; [reflexivity|]. cbn. repeat split. discriminate.
Qed.

Lemma initialNodes_one_node_per_agent_on_the_circle_witness :
  exists n,
    initialNodes
      (Orchestrator.agents
         (fst (refreshAll net_quiet DEFAULT_AGENT_CONFIGS initialState))) []
    !! 2 = Some n
    /\ id n = "agent-gamma-analytics"
    /\ position n = OnCircle 150 2 3.
Proof.
  destruct (initialNodes_one_node_per_agent_on_the_circle
              (Orchestrator.agents
                 (fst (refreshAll net_quiet DEFAULT_AGENT_CONFIGS initialState))) [])
    as (_ & _ & Hnode).
  destruct (Hnode 2 (AgentStatus.mk "agent-gamma-analytics" "CVDT Chatbot Agent"
                                    "data-analytics" online 8002 (Some "t"))
                  eq_refl) as (n & Hn & Hagent & _ & Hpos & _).
  exists n. split; [exact Hn|]. split; [|exact Hpos].
  vm_compute in Hn. injection Hn as <-. reflexivity.
Defined.

Lemma find_imap_own (F : nat -> AgentStatus.t -> Node)
      (agents : list AgentStatus.t) (i : nat) (a : AgentStatus.t) :
  (forall j b, id (F j b) = AgentStatus.agent_id b) ->
  List.NoDup (map AgentStatus.agent_id agents) ->
  agents !! i = Some a ->
  List.find (fun n => String.eqb (id n) (AgentStatus.agent_id a)) (imap F agents)
  = Some (F i a).
Proof.
  revert F i. induction agents as [|b r IH]; intros F i HF Hnd Hi;
    [discriminate Hi|].
  rewrite imap_cons. cbn [List.find]. rewrite HF.
  cbn [map] in Hnd. apply List.NoDup_cons_iff in Hnd. destruct Hnd as [Hb Hnd].
  destruct i as [|i]; cbn in Hi.
  - injection Hi as ->. rewrite String.eqb_refl. reflexivity.
  - destruct (String.eqb_spec (AgentStatus.agent_id b) (AgentStatus.agent_id a))
      as [Heq|_].
    + exfalso. apply Hb. rewrite Heq. apply in_map.
      apply list_elem_of_In. exact (list_elem_of_lookup_2 _ _ _ Hi).
    + apply (IH (fun j => F (S j)) i); [intros j b'; apply HF | exact Hnd | exact Hi].
Qed.

(** X15.  When the agents change, the effect rebuilds one node per agent:
    a node whose id was already displayed keeps the position of the
    displayed node (the first with that id), also one the user dragged it
    to, and only an agent with a new id is put on the circle.  With
    pairwise distinct agent ids the effect is idempotent, and it leaves the
    initial nodes where they are: repeated rounds with the same agents do
    not move anything. *)
Theorem newNodes_keeps_displayed_positions
        (agents : list AgentStatus.t) (exchanges : list ExchangeLog.t)
        (nodes : list Node) :
  (forall i a, agents !! i = Some a ->
     exists n,
       newNodes agents exchanges nodes !! i = Some n
       /\ id n = AgentStatus.agent_id a
       /\ agent (data n) = a
       /\ position n
          = match List.find (fun old => String.eqb (id old) (AgentStatus.agent_id a))
                            nodes with
            | Some old => position old
            | None => OnCircle (Z.max 150 (Z.of_nat (length agents) * 40)) i
                               (length agents)
            end)
  /\ (List.NoDup (map AgentStatus.agent_id agents) ->
      newNodes agents exchanges (newNodes agents exchanges nodes)
      = newNodes agents exchanges nodes
      /\ newNodes agents exchanges (initialNodes agents exchanges)
         = initialNodes agents exchanges).
Proof.
  split.
  - intros i a Hi. unfold newNodes. rewrite list_lookup_imap, Hi. cbn.
    rewrite (calculateNodePositions_lookup _ _ (lookup_lt_Some _ _ _ Hi)). cbn.
    eexists. split; [reflexivity|]. cbn. repeat split.
  - intros Hnd. split.
    + unfold newNodes at 1 3. apply imap_ext. intros i a Hi.
      unfold newNodes. rewrite (find_imap_own _ agents i a); auto.
    + unfold newNodes, initialNodes. apply imap_ext. intros i a Hi.
      rewrite (find_imap_own _ agents i a); auto.
Qed.

Lemma newNodes_keeps_displayed_positions_witness :
  let agents := Orchestrator.agents
                  (fst (refreshAll net_quiet DEFAULT_AGENT_CONFIGS initialState)) in
  newNodes agents [] (initialNodes agents []) = initialNodes agents [].
Proof.
  cbv zeta.
  apply (proj2 (newNodes_keeps_displayed_positions
                  (Orchestrator.agents
                     (fst (refreshAll net_quiet DEFAULT_AGENT_CONFIGS initialState)))
                  [] [])).
  vm_compute. repeat constructor; cbn; intuition discriminate.
Defined.

Lemma find_first_split {A} (f : A -> bool) (l : list A) (x : A) :
  List.find f l = Some x ->
  exists before after,
    l = before ++ x :: after /\ f x = true
    /\ Forall (fun b => f b = false) before.
Proof.
  induction l as [|b l IH]; cbn [List.find]; [discriminate|].
  destruct (f b) eqn:Hb.
  - intros [= <-]. exists [], l. split; [reflexivity|]. split; [exact Hb|constructor].
  - intros Hfind. destruct (IH Hfind) as (before & after & -> & Hx & Hbefore).
    exists (b :: before), after. split; [reflexivity|]. split; [exact Hx|].
    constructor; assumption.
Qed.

(** X16.  A click on a node whose id is the id of an agent of the list
    selects the first agent of the list that has this id (no agent before
    it in the list has the id), and the MiniMap colours the node by that
    agent's status; with pairwise distinct ids this is the agent of the
    node itself.  A click on a node whose id no agent has selects nothing
    and changes nothing, and the MiniMap shows the node as offline. *)
Theorem node_click_selects_first_agent_with_the_id
        (agents : list AgentStatus.t) (node : Node) (st : OrchestratorState) :
  (forall a, In a agents -> AgentStatus.agent_id a = id node ->
     exists before a' after,
       agents = before ++ a' :: after
       /\ AgentStatus.agent_id a' = id node
       /\ Forall (fun b => AgentStatus.agent_id b <> id node) before
       /\ handleNodeClick agents node st = setSelectedAgent (Some a') st
       /\ nodeColor agents node = getStatusColor (AgentStatus.status a')
       /\ (List.NoDup (map AgentStatus.agent_id agents) -> a' = a))
  /\ (~ In (id node) (map AgentStatus.agent_id agents) ->
      handleNodeClick agents node st = (st, Normal tt)
      /\ nodeColor agents node = getStatusColor offline).
Proof.
  unfold handleNodeClick, nodeColor. split.
  - intros a Ha Hid.
    destruct (List.find (fun a0 => String.eqb (AgentStatus.agent_id a0) (id node))
                        agents) as [a'|] eqn:Hfind.
    + destruct (find_first_split _ _ _ Hfind) as (before & after & Hsplit & Heq & Hbefore).
      apply String.eqb_eq in Heq. exists before, a', after.
      split; [exact Hsplit|]. split; [exact Heq|]. split; [|split; [|split]].
      * rewrite List.Forall_forall in *. intros b Hb.
        apply String.eqb_neq. now apply Hbefore.
      * reflexivity.
      * destruct (AgentStatus.status a'); reflexivity.
      * intros Hnd. apply (NoDup_ids_inj agents a' a Hnd); [|exact Ha|congruence].
        rewrite Hsplit. apply in_app_iff. right. left. reflexivity.
    + exfalso. apply (find_none _ _ Hfind a) in Ha.
      apply String.eqb_neq in Ha. contradiction.
  - intros Hnot.
    destruct (List.find (fun a0 => String.eqb (AgentStatus.agent_id a0) (id node))
                        agents) as [a'|] eqn:Hfind; [|split; reflexivity].
    apply find_some in Hfind. destruct Hfind as [Ha' Heq].
    apply String.eqb_eq in Heq. exfalso. apply Hnot. rewrite <- Heq.
    now apply in_map.
Qed.

End Nodes.

Lemma node_click_selects_first_agent_with_the_id_witness :
  let agents := Orchestrator.agents
                  (fst (refreshAll net_twins DEFAULT_AGENT_CONFIGS initialState)) in
  let gamma := AgentStatus.mk "dkmes-alpha" "Alpha" "km" online 8002 (Some "t") in
  exists before a' after,
    agents = before ++ a' :: after
    /\ Forall (fun b => AgentStatus.agent_id b <> "dkmes-alpha"%string) before
    /\ GraphNodes.handleNodeClick agents
         (GraphNodes.mkNode "dkmes-alpha" "agentNode" (GraphNodes.At 0 0)
                            (GraphNodes.mkNodeData gamma (Some 0)))
         initialState
       = setSelectedAgent (Some a') initialState
    /\ AgentStatus.port a' = 8000%Z.
Proof.
  cbv zeta.
  destruct (proj1 (node_click_selects_first_agent_with_the_id
                     (Orchestrator.agents
                        (fst (refreshAll net_twins DEFAULT_AGENT_CONFIGS initialState)))
                     (GraphNodes.mkNode "dkmes-alpha" "agentNode" (GraphNodes.At 0 0)
                        (GraphNodes.mkNodeData
                           (AgentStatus.mk "dkmes-alpha" "Alpha" "km" online 8002
                                           (Some "t"))
                           (Some 0)))
                     initialState)
                  (AgentStatus.mk "dkmes-alpha" "Alpha" "km" online 8002 (Some "t")))
    as (before & a' & after & Hsplit & _ & Hbefore & Hclick & _).
  - vm_compute. tauto.
  - reflexivity.
  - exists before, a', after. split; [exact Hsplit|]. split; [exact Hbefore|].
    split; [exact Hclick|].
    vm_compute in Hclick. injection Hclick as <-. reflexivity.
Defined.

(** ** The two-agent component, and how the two components agree *)

Lemma fetchAgentStatus_cases (net : Wire.Net) (c : AgentConfig.t) :
  (fetchFailed (Wire.health net (AgentConfig.port c)) = true
   /\ fetchAgentStatus net c = Normal (fallbackStatus c)
   /\ Legacy.fetchAgentStatus net (AgentConfig.port c) = Normal None)
  \/ (exists body,
        fetchFailed (Wire.health net (AgentConfig.port c)) = false
        /\ fetchAgentStatus net c
           = Normal (AgentStatus.mk
                       (or_string (Wire.agent_id body) (AgentConfig.fallbackId c))
                       (or_string (Wire.agent_name body) (AgentConfig.fallbackName c))
                       (or_string (Wire.domain body) (AgentConfig.fallbackDomain c))
                       online (AgentConfig.port c) (Wire.timestamp body))
        /\ Legacy.fetchAgentStatus net (AgentConfig.port c)
           = Normal (Some (Legacy.mkStatus
                             (Wire.agent_id body)
                             (or_string (Wire.agent_name body)
                                (if (AgentConfig.port c =? 8000)%Z
                                 then "DKMES Alpha" else "Agent Beta"))
                             (Wire.domain body) online (Wire.timestamp body)))).
Proof.
  unfold fetchAgentStatus, Legacy.fetchAgentStatus, fetchFailed.
  destruct (Wire.health net (AgentConfig.port c)) as [response|e]; cbn;
    [|left; repeat split].
  destruct (Wire.ok response); cbn; [|left; repeat split].
  destruct (Wire.json response) as [[|body]|e]; cbn;
    [left; repeat split | right; exists body; repeat split | left; repeat split].
Qed.

Lemma legacy_fetchExchanges_agrees (net : Wire.Net) (p : Z) :
  exists w,
    Legacy.fetchExchanges net p = Normal w
    /\ fetchExchanges net p = Normal (mkExchangeResult p w)
    /\ (fetchFailed (Wire.history net p) = true -> w = []).
Proof.
  unfold Legacy.fetchExchanges, fetchExchanges, fetchFailed.
  destruct (Wire.history net p) as [response|e]; cbn; [|eauto].
  destruct (Wire.ok response); cbn; [|eauto].
  destruct (Wire.json response) as [[|body]|e]; cbn; eauto.
  eexists. repeat split. discriminate.
Qed.

(** X17.  A round of the two-agent component always completes and always
    leaves a status for alpha and for beta (never [null]): the built-in
    offline status when the probe of the agent's port failed, an online
    status otherwise.  A failed history fetch leaves the empty list, the
    loading flag is cleared and the auto-refresh setting is not touched. *)
Theorem legacy_round_always_shows_both_agents (net : Wire.Net) (st : Legacy.State) :
  exists alpha beta alphaEx betaEx tasks,
    Legacy.refreshAll net st
    = (Legacy.mkState (Some alpha) (Some beta) alphaEx betaEx tasks false
                      (Legacy.autoRefresh st), Normal tt)
    /\ (fetchFailed (Wire.health net 8000) = true -> alpha = Legacy.alphaOffline)
    /\ (fetchFailed (Wire.health net 8000) = false -> Legacy.status alpha = online)
    /\ (fetchFailed (Wire.health net 8001) = true -> beta = Legacy.betaOffline)
    /\ (fetchFailed (Wire.health net 8001) = false -> Legacy.status beta = online)
    /\ (fetchFailed (Wire.history net 8000) = true -> alphaEx = [])
    /\ (fetchFailed (Wire.history net 8001) = true -> betaEx = [])
    /\ Legacy.fetchTasks net = Normal tasks.
Proof.
  unfold Legacy.refreshAll.
  destruct (legacy_fetchExchanges_agrees net 8000) as (ax & -> & _ & Hax).
  destruct (legacy_fetchExchanges_agrees net 8001) as (bx & -> & _ & Hbx).
  destruct (fetchTasks_settles net) as (tasks & Htasks).
  change (Legacy.fetchTasks net) with (fetchTasks net). rewrite Htasks.
  destruct (fetchAgentStatus_cases net (AgentConfig.mk 8000 "" "" ""))
    as [(Hf0 & _ & H0) | (body0 & Hf0 & _ & H0)];
    destruct (fetchAgentStatus_cases net (AgentConfig.mk 8001 "" "" ""))
      as [(Hf1 & _ & H1) | (body1 & Hf1 & _ & H1)];
    cbn [AgentConfig.port] in *; rewrite H0, H1; cbn;
    do 5 eexists; (split; [reflexivity|]);
    rewrite Hf0, Hf1; repeat split; try discriminate; assumption.
Qed.

Lemma legacy_round_always_shows_both_agents_witness :
  exists alpha beta alphaEx betaEx tasks,
    Legacy.refreshAll net_partial Legacy.initialState
    = (Legacy.mkState (Some alpha) (Some beta) alphaEx betaEx tasks false true,
       Normal tt)
    /\ Legacy.status alpha = online
    /\ beta = Legacy.betaOffline
    /\ betaEx = [].
Proof.
  destruct (legacy_round_always_shows_both_agents net_partial Legacy.initialState)
    as (alpha & beta & ax & bx & tasks & Hrun & _ & Ha & Hb & _ & _ & Hbx & _).
  exists alpha, beta, ax, bx, tasks.
  split; [exact Hrun|]. split; [apply Ha; reflexivity|].
  split; [apply Hb; reflexivity | apply Hbx; reflexivity].
Defined.

(** X18.  On the same network the two components agree on alpha and beta.
    For every registry the multi-agent component reaches (the defaults
    first), its first two statuses have the reachability the two-agent
    component shows for alpha and beta, the same name for alpha and, for an
    offline agent, the same id, name and domain; the windows it stores for
    ports 8000 and 8001 are the lists the two-agent component shows, and the
    task lists are the same. *)
Theorem components_agree_on_alpha_and_beta
        (net : Wire.Net) (added : list AgentConfig.t)
        (st : OrchestratorState) (old : Legacy.State) :
  let st' := fst (refreshAll net (DEFAULT_AGENT_CONFIGS ++ added) st) in
  let old' := fst (Legacy.refreshAll net old) in
  exists a0 a1 rest alpha beta,
    agents st' = a0 :: a1 :: rest
    /\ Legacy.alphaStatus old' = Some alpha
    /\ Legacy.betaStatus old' = Some beta
    /\ AgentStatus.status a0 = Legacy.status alpha
    /\ AgentStatus.status a1 = Legacy.status beta
    /\ AgentStatus.name a0 = Legacy.name alpha
    /\ (AgentStatus.status a0 = offline ->
        Legacy.agent_id alpha = Some (AgentStatus.agent_id a0)
        /\ Legacy.domain alpha = Some (AgentStatus.domain a0))
    /\ (AgentStatus.status a1 = offline ->
        Legacy.agent_id beta = Some (AgentStatus.agent_id a1)
        /\ Legacy.name beta = AgentStatus.name a1
        /\ Legacy.domain beta = Some (AgentStatus.domain a1))
    /\ exchangesByPort st' !! 8000%Z = Some (Legacy.alphaExchanges old')
    /\ exchangesByPort st' !! 8001%Z = Some (Legacy.betaExchanges old')
    /\ activeTasks st' = Legacy.activeTasks old'.
Proof.
  cbv zeta.
  destruct (refreshAll_publishes net (DEFAULT_AGENT_CONFIGS ++ added) st)
    as (ars & ers & tasks & HFa & HFe & Htasks & ->).
  cbn [fst agents exchangesByPort activeTasks].
  unfold DEFAULT_AGENT_CONFIGS in HFa. cbn [app] in HFa.
  inversion HFa as [|c0 a0 cs0 ars0 Ha0 HFa0]; subst.
  inversion HFa0 as [|c1 a1 cs1 ars1 Ha1 HFa1]; subst.
  exists a0, a1, ars1.
  unfold Legacy.refreshAll.
  destruct (legacy_fetchExchanges_agrees net 8000) as (ax & -> & Hax & _).
  destruct (legacy_fetchExchanges_agrees net 8001) as (bx & -> & Hbx & _).
  change (Legacy.fetchTasks net) with (fetchTasks net). rewrite Htasks.
  assert (storeByPort ers !! 8000%Z = Some ax) as Hs0.
  { apply (storeByPort_lookup net _ ers _ _ HFe). split; [|exact Hax].
    eexists. split; [left; reflexivity | reflexivity]. }
  assert (storeByPort ers !! 8001%Z = Some bx) as Hs1.
  { apply (storeByPort_lookup net _ ers _ _ HFe). split; [|exact Hbx].
    eexists. split; [right; left; reflexivity | reflexivity]. }
  destruct (fetchAgentStatus_cases net
              (AgentConfig.mk 8000 "dkmes-alpha" "DKMES Alpha" "knowledge-management"))
    as [(_ & Hc0 & H0) | (body0 & _ & Hc0 & H0)];
    destruct (fetchAgentStatus_cases net
                (AgentConfig.mk 8001 "agent-beta-aiml" "AI/ML Research Agent"
                                "artificial-intelligence"))
      as [(_ & Hc1 & H1) | (body1 & _ & Hc1 & H1)];
    cbn [AgentConfig.port] in *; rewrite H0, H1; cbn;
    rewrite Hc0 in Ha0; rewrite Hc1 in Ha1;
    injection Ha0 as <-; injection Ha1 as <-;
    do 2 eexists; cbn;
    repeat (split; [first [reflexivity | assumption | discriminate
                           | intros _; repeat split]|]);
    reflexivity.
Qed.

(** ** A change of the registry and the next round *)

(** X19.  A change of the registry shows in the next round.  After
    [removeAgent port], a round on the new registry publishes no status
    with that port and stores no window for it.  After an [addAgent] that
    accepts the typed port (a safe integer, not zero, not registered), a
    round on the new registry publishes the statuses of the earlier
    descriptors followed by one for the new port, and stores a window for
    it. *)
Theorem registry_change_shows_in_next_round
        (net : Wire.Net) (st : OrchestratorState) (p : Z) :
  (let st1 := fst (removeAgent p st) in
   let st2 := fst (refreshAll net (agentConfigs st1) st1) in
   ~ In p (map AgentStatus.port (agents st2))
   /\ exchangesByPort st2 !! p = None)
  /\ (parseInt (newAgentPort st) = Some p -> isSafeInteger p = true ->
      p <> 0%Z ->
      ~ In p (map AgentConfig.port (agentConfigs st)) ->
      let st1 := fst (addAgent st) in
      let st2 := fst (refreshAll net (agentConfigs st1) st1) in
      map AgentStatus.port (agents st2)
      = map AgentConfig.port (agentConfigs st) ++ [p]
      /\ exists w, exchangesByPort st2 !! p = Some w
                   /\ fetchExchanges net p = Normal (mkExchangeResult p w)).
Proof.
  split.
  - cbv zeta.
    set (cfgs := agentConfigs (fst (removeAgent p st))).
    assert (~ In p (map AgentConfig.port cfgs)) as Hgone.
    { unfold cfgs. cbn. intros H. apply in_map_iff in H.
      destruct H as (c & Hp & Hc). apply filter_In in Hc.
      destruct Hc as [_ Hc]. apply negb_true_iff, Z.eqb_neq in Hc. contradiction. }
    destruct (refreshAll_publishes net cfgs (fst (removeAgent p st)))
      as (ars & ers & tasks & HFa & HFe & _ & ->).
    cbn [fst agents exchangesByPort]. split.
    + now rewrite (published_ports net cfgs ars HFa).
    + destruct (storeByPort ers !! p) as [w|] eqn:Hlook; [|reflexivity].
      apply (storeByPort_lookup net cfgs ers _ _ HFe) in Hlook.
      destruct Hlook as [(c & Hc & Hp) _]. exfalso. apply Hgone.
      rewrite <- Hp. now apply in_map.
  - intros Hparse _ Hnz Hfresh. cbv zeta.
    destruct (addAgent_cases st) as [Heq | (q & Hq & _ & _ & Heq)].
    { exfalso. revert Heq. unfold addAgent. rewrite Hparse. cbn [truthy_number].
      destruct (existsb (fun c => (AgentConfig.port c =? p)%Z) (agentConfigs st))
        eqn:Hex; [apply existsb_port_In in Hex; contradiction|].
      apply Z.eqb_neq in Hnz. rewrite Hnz. cbn.
      intros [= Habs]. apply (f_equal agentConfigs) in Habs. cbn in Habs.
      apply (f_equal (@length _)) in Habs.
      rewrite length_app in Habs. cbn in Habs. lia. }
    assert (q = p) as -> by congruence.
    rewrite Heq. cbn [fst agentConfigs].
    set (cfgs := agentConfigs st ++ [derivedConfig p]).
    destruct (refreshAll_publishes net cfgs
                (mkState cfgs (agents st) (exchangesByPort st) (activeTasks st)
                         (selectedAgent st) (loading st) (autoRefresh st) false ""))
      as (ars & ers & tasks & HFa & HFe & _ & ->).
    cbn [fst agents exchangesByPort]. split.
    + rewrite (published_ports net cfgs ars HFa). unfold cfgs.
      now rewrite List.map_app.
    + destruct (fetchExchanges_settles net p) as (w & Hw). exists w.
      split; [|exact Hw].
      apply (storeByPort_lookup net cfgs ers _ _ HFe). split; [|exact Hw].
      exists (derivedConfig p). split; [|reflexivity].
      unfold cfgs. apply in_app_iff. right. left. reflexivity.
Qed.

Lemma registry_change_shows_in_next_round_witness :
  let st1 := fst (addAgent (form_with "8003")) in
  let st2 := fst (refreshAll net_quiet (agentConfigs st1) st1) in
  map AgentStatus.port (agents st2) = [8000; 8001; 8002; 8003]%Z.
Proof.
  cbv zeta.
  apply (proj2 (registry_change_shows_in_next_round net_quiet (form_with "8003")
                  8003%Z) eq_refl eq_refl).
  - discriminate.
  - cbn. intros [H|[H|[H|[]]]]; discriminate H.
Defined.

Lemma reachable_interval_is_current_and_stops_with_auto_refresh_witness :
  autoRefresh (hooks (run unmounted [Mount; ClickRefresh])) = true
  /\ DEFAULT_AGENT_CONFIGS = agentConfigs (hooks (run unmounted [Mount; ClickRefresh])).
Proof.
  apply (proj1 (reachable_interval_is_current_and_stops_with_auto_refresh
                  [Mount; ClickRefresh])
               DEFAULT_AGENT_CONFIGS).
  reflexivity.
Defined.

Lemma components_agree_on_alpha_and_beta_witness :
  exists a1 beta,
    agents (fst (refreshAll net_partial (DEFAULT_AGENT_CONFIGS ++ []) initialState))
    !! 1 = Some a1
    /\ Legacy.betaStatus (fst (Legacy.refreshAll net_partial Legacy.initialState))
       = Some beta
    /\ Legacy.agent_id beta = Some (AgentStatus.agent_id a1)
    /\ Legacy.name beta = AgentStatus.name a1.
Proof.
  destruct (components_agree_on_alpha_and_beta
              net_partial [] initialState Legacy.initialState)
    as (a0 & a1 & rest & alpha & beta & Hag & _ & Hb & _ & _ & _ & _ & Hoff & _).
  exists a1, beta. split; [rewrite Hag; reflexivity|]. split; [exact Hb|].
  assert (AgentStatus.status a1 = offline) as Hs.
  { vm_compute in Hag. injection Hag as _ <- _. reflexivity. }
  destruct (Hoff Hs) as (Hid & Hname & _). split; [exact Hid | exact Hname].
Defined.
